(** * ESP32 PT100 MQTT gateway: the orchestration loop of [src/main.cpp]

    A shallow embedding of the sketch's globals, of [setup], [loop],
    [connectWiFi], [ensureWiFiConnection] and of the two OTA callbacks, and
    the properties of the timers, of the session flag, of the telemetry block
    and of the progress throttle; then runs of [loop], and the credentials
    loader of [src/credentials_loader.cpp] with the store it shares with the
    gateway.

    The libraries the sketch drives (WiFi, ThingsBoard, the MAX31865 driver,
    Preferences, Serial) are outside the sketch.  A call to one of them is
    recorded as an [event] of the trace; the value it returns is read from an
    environment that the caller of the model supplies.  Every assignment to a
    global of the sketch goes through [write], which also records it in the
    trace, so that "who writes what, and when" can be read off the trace. *)

From Stdlib Require Import ZArith List Ascii String Bool Lia Arith.
Import ListNotations.
Open Scope string_scope.
Open Scope Z_scope.
Open Scope list_scope.

Section Gateway.

(** The sketch only forwards [float] values: it never inspects them.  The
    type of C floats and the three library computations that produce text or
    floats are therefore left abstract. *)
Variable float32 : Type.
(** [0.0f], the value of a zero-initialised global [float]. *)
Variable float_zero : float32.
(** [(chunk * 100.0f) / total] in single precision (main.cpp:183). *)
Variable ota_percent : Z -> Z -> float32.
(** ArduinoJson's [serializeJson] on a document given as its key/value
    pairs. *)
Variable serializeJson : list (string * float32) -> string.

(** ** Constants (main.cpp:44-107) *)

Definition DEVICE_TYPE_COLD_STORAGE : Z := 1.
Definition DEVICE_TYPE_GENERIC : Z := 2.
Definition DEVICE_TYPE : Z := DEVICE_TYPE_COLD_STORAGE.
Definition FIRMWARE_VERSION : string := "1.3.0".
Definition OTA_RETRY_LIMIT : Z := 24.
Definition OTA_PACKET_SIZE : Z := 4096.
Definition MQTT_SERVER : string := "mqtt.thingsboard.cloud".
Definition MQTT_PORT : Z := 1883.
Definition SERIAL_BAUDRATE : Z := 115200.
Definition PT100_REFERENCE_RESISTOR : Z := 430.
Definition PT100_NOMINAL_RESISTANCE : Z := 100.
Definition TELEMETRY_INTERVAL_MS : Z := 900000.
Definition CONNECTION_CHECK_MS : Z := 1000.

(** [unsigned long] is 32 bits wide on the ESP32; subtraction wraps. *)
Definition ULONG_BITS : Z := 32.
Definition ulong_sub (a b : Z) : Z := (a - b) mod 2 ^ ULONG_BITS.

(** ** Globals (main.cpp:49, 72-81, 103-116, 138-140, 181) *)

Record globals : Type := mkGlobals {
  firmwareTitle : option string;          (* [nullptr] is [None] *)
  wifiSSID : string;
  wifiPassword : string;
  routerMAC : list Z;
  wifiChannel : Z;
  mqttToken : string;
  lastTelemetryMillis : Z;
  lastConnectionCheckMillis : Z;
  sendInitialTelemetry : bool;
  temperatureCelsius : float32;
  mqttConnected : bool;
  telemetryJson : list (string * float32);
  jsonBuffer : string;
  counter : Z                             (* the static of [onOtaProgress] *)
}.

(** The values the globals have when [setup] starts. *)
Definition globals_init : globals :=
  {| firmwareTitle := None;
     wifiSSID := "";
     wifiPassword := "";
     routerMAC := [0; 0; 0; 0; 0; 0];
     wifiChannel := 0;
     mqttToken := "";
     lastTelemetryMillis := 0;
     lastConnectionCheckMillis := 0;
     sendInitialTelemetry := true;
     temperatureCelsius := float_zero;
     mqttConnected := false;
     telemetryJson := [];
     jsonBuffer := "";
     counter := 0 |}.

(** An assignment to a global. *)
Inductive store : Type :=
| Set_firmwareTitle (s : string)
| Set_wifiSSID (s : string)
| Set_wifiPassword (s : string)
| Set_routerMAC (b : list Z)
| Set_wifiChannel (c : Z)
| Set_mqttToken (s : string)
| Set_lastTelemetryMillis (t : Z)
| Set_lastConnectionCheckMillis (t : Z)
| Set_sendInitialTelemetry (b : bool)
| Set_temperatureCelsius (v : float32)
| Set_mqttConnected (b : bool)
| Set_telemetryJson (key : string) (v : float32)  (* [doc[key] = v] *)
| Clear_telemetryJson                             (* [doc.clear()] *)
| Set_jsonBuffer (s : string)
| Set_counter (c : Z).

(** [doc[key] = v]: replaces the value of [key], or appends the pair. *)
Fixpoint json_set (key : string) (v : float32) (doc : list (string * float32))
  : list (string * float32) :=
  match doc with
  | [] => [(key, v)]
  | (k, w) :: rest =>
      if String.eqb k key then (k, v) :: rest else (k, w) :: json_set key v rest
  end.

Definition apply_store (s : store) (g : globals) : globals :=
  let '(mkGlobals ft ssid pw mac ch tok lt lc si tc mc tj jb cn) := g in
  match s with
  | Set_firmwareTitle x => mkGlobals (Some x) ssid pw mac ch tok lt lc si tc mc tj jb cn
  | Set_wifiSSID x => mkGlobals ft x pw mac ch tok lt lc si tc mc tj jb cn
  | Set_wifiPassword x => mkGlobals ft ssid x mac ch tok lt lc si tc mc tj jb cn
  | Set_routerMAC x => mkGlobals ft ssid pw x ch tok lt lc si tc mc tj jb cn
  | Set_wifiChannel x => mkGlobals ft ssid pw mac x tok lt lc si tc mc tj jb cn
  | Set_mqttToken x => mkGlobals ft ssid pw mac ch x lt lc si tc mc tj jb cn
  | Set_lastTelemetryMillis x => mkGlobals ft ssid pw mac ch tok x lc si tc mc tj jb cn
  | Set_lastConnectionCheckMillis x => mkGlobals ft ssid pw mac ch tok lt x si tc mc tj jb cn
  | Set_sendInitialTelemetry x => mkGlobals ft ssid pw mac ch tok lt lc x tc mc tj jb cn
  | Set_temperatureCelsius x => mkGlobals ft ssid pw mac ch tok lt lc si x mc tj jb cn
  | Set_mqttConnected x => mkGlobals ft ssid pw mac ch tok lt lc si tc x tj jb cn
  | Set_telemetryJson k v => mkGlobals ft ssid pw mac ch tok lt lc si tc mc (json_set k v tj) jb cn
  | Clear_telemetryJson => mkGlobals ft ssid pw mac ch tok lt lc si tc mc [] jb cn
  | Set_jsonBuffer x => mkGlobals ft ssid pw mac ch tok lt lc si tc mc tj x cn
  | Set_counter x => mkGlobals ft ssid pw mac ch tok lt lc si tc mc tj jb x
  end.

(** ** Events *)

(** The two callbacks of the sketch, as they are passed by address. *)
Inductive callback : Type := Fn_onOtaProgress | Fn_onOtaCompleted.

(** The arguments of the [OTA_Update_Callback] constructor
    (main.cpp:239-247), [&otaUpdater] apart, which is always the same. *)
Record OTA_Update_Callback : Type := mkOta {
  ota_progress : callback;
  ota_completed : callback;
  ota_title : option string;
  ota_version : string;
  ota_retries : Z;
  ota_packet_size : Z
}.

Inductive event : Type :=
| Store (s : store)
| Serial_begin (baud : Z)
| Serial_print (s : string)
| Serial_println (s : string)
| Delay (ms : Z)
| Preferences_begin (name : string) (readOnly : bool)
| Preferences_end
| WiFi_begin (ssid pass : string) (channel : Z) (bssid : list Z)
| WiFi_status (connected : bool)
| Pt100_begin
| Pt100_temperature (nominal ref : Z) (result : float32)
| Tb_connected (result : bool)
| Tb_connect (server token : string) (port : Z) (result : bool)
| Firmware_Send_Info (title : option string) (version : string)
| Firmware_Send_State (state : string)
| Subscribe_Firmware_Update (cb : OTA_Update_Callback)
| SendTelemetryJson (payload : string)
| SendAttributeData (key : string) (value : float32)
| Tb_loop
| Esp_restart
| Millis (result : Z).

(** ** The monad of the sketch

    A computation reads and writes the globals and appends to the trace.  It
    ends normally, with a value and the new globals, or in [esp_restart],
    which does not return: what is sequenced after it does not run.  [None]
    stands for a computation that is still inside the blocking wait of
    [connectWiFi] when the bound on the number of polls is reached. *)

Inductive outcome (A : Type) : Type :=
| Normal (a : A) (g : globals) (t : list event)
| Restarted (t : list event).
Arguments Normal {A} a g t.
Arguments Restarted {A} t.

Definition M (A : Type) : Type := globals -> option (outcome A).

Definition ret {A} (a : A) : M A := fun g => Some (Normal a g []).

Definition bind {A B} (m : M A) (k : A -> M B) : M B :=
  fun g =>
    match m g with
    | None => None
    | Some (Restarted t1) => Some (Restarted t1)
    | Some (Normal a g1 t1) =>
        match k a g1 with
        | None => None
        | Some (Normal b g2 t2) => Some (Normal b g2 (t1 ++ t2))
        | Some (Restarted t2) => Some (Restarted (t1 ++ t2))
        end
    end.

Definition emit (e : event) : M unit := fun g => Some (Normal tt g [e]).
Definition read {A} (f : globals -> A) : M A := fun g => Some (Normal (f g) g []).
Definition write (s : store) : M unit :=
  fun g => Some (Normal tt (apply_store s g) [Store s]).
Definition blocked {A} : M A := fun _ => None.
Definition esp_restart {A} : M A := fun _ => Some (Restarted [Esp_restart]).

Notation "x <- m ;; k" := (bind m (fun x => k))
  (at level 61, m at next level, right associativity).
Notation "m ;; k" := (bind m (fun _ => k))
  (at level 61, right associativity).

(** ** WiFi functions (main.cpp:146-165) *)

(** The [while] of [connectWiFi].  [WiFi.status()] may change between two
    polls: [status k] is what the [k]-th poll of the current call of [setup]
    or [loop] returns, [true] for [WL_CONNECTED].  The wait starts at poll
    [k] and gives up, as [blocked], after [fuel] polls. *)
Fixpoint wifi_wait (fuel : nat) (status : nat -> bool) (k : nat) : M unit :=
  match fuel with
  | O => blocked
  | S fuel' =>
      emit (WiFi_status (status k)) ;;
      if status k then ret tt
      else
        emit (Delay 500) ;;
        emit (Serial_print ".") ;;
        wifi_wait fuel' status (S k)
  end.

Definition connectWiFi (fuel : nat) (status : nat -> bool) (k : nat) : M unit :=
  emit (Serial_println "Connecting to WiFi...") ;;
  ssid <- read wifiSSID ;;
  pass <- read wifiPassword ;;
  channel <- read wifiChannel ;;
  mac <- read routerMAC ;;
  emit (WiFi_begin ssid pass channel mac) ;;
  wifi_wait fuel status k ;;
  emit (Serial_println (String "010"%char "WiFi connected")).

Definition ensureWiFiConnection (fuel : nat) (status : nat -> bool) : M bool :=
  emit (WiFi_status (status 0%nat)) ;;
  if status 0%nat then ret true
  else
    connectWiFi fuel status 1%nat ;;
    ret true.

(** ** OTA callbacks (main.cpp:171-187) *)

Definition onOtaCompleted (success : bool) : M unit :=
  if success then
    emit (Serial_println "OTA completed successfully, restarting...") ;;
    esp_restart
  else
    emit (Serial_println "OTA update failed").

(** [counter] is an [int].  Starting from 0 it stays between 0 and 10 (see
    [progress_run_from]), so [++counter] never overflows. *)
Definition onOtaProgress (chunk total : Z) : M unit :=
  c <- read counter ;;
  write (Set_counter (c + 1)) ;;
  c' <- read counter ;;
  if 10 <=? c' then
    let percent := ota_percent chunk total in
    emit (SendAttributeData "OTA_Progress" percent) ;;
    write (Set_counter 0)
  else ret tt.

(** ** Setup (main.cpp:193-213) *)

(** The "credentials" namespace of the Preferences store, as [setup] finds
    it: a key that is absent is [None].  [pref_mac] is [Some bytes] when
    [getBytes] fills the six bytes of [routerMAC] with [bytes], and [None]
    when it copies nothing. *)
Record preferences : Type := mkPrefs {
  pref_ssid : option string;
  pref_password : option string;
  pref_mac : option (list Z);
  pref_channel : option Z;
  pref_mqtt_token : option string
}.

Definition getString (v : option string) (default : string) : string :=
  match v with Some s => s | None => default end.
Definition getInt (v : option Z) (default : Z) : Z :=
  match v with Some z => z | None => default end.

Definition setup (fuel : nat) (prefs : preferences) (status : nat -> bool)
  : M unit :=
  emit (Serial_begin SERIAL_BAUDRATE) ;;
  emit (Delay 1000) ;;
  emit (Preferences_begin "credentials" true) ;;
  write (Set_wifiSSID (getString (pref_ssid prefs) "")) ;;
  write (Set_wifiPassword (getString (pref_password prefs) "")) ;;
  (* [getBytes] leaves the buffer as it is when the key is absent *)
  match pref_mac prefs with
  | Some bytes => write (Set_routerMAC bytes)
  | None => ret tt
  end ;;
  write (Set_wifiChannel (getInt (pref_channel prefs) 0)) ;;
  write (Set_mqttToken (getString (pref_mqtt_token prefs) "")) ;;
  emit Preferences_end ;;
  write (Set_firmwareTitle
           (if DEVICE_TYPE =? DEVICE_TYPE_COLD_STORAGE
            then "PT100_Cold_Storage" else "PT100_Generic")) ;;
  connectWiFi fuel status 0%nat ;;
  emit Pt100_begin.

(** ** Main loop (main.cpp:219-274) *)

(** What one call of [loop] gets from the outside: the clock, the link, the
    session client and the sensor. *)
Record tick : Type := mkTick {
  millis : Z;
  wifi_status : nat -> bool;
  tb_connected : bool;      (* [thingsboard.connected()] *)
  tb_connect : bool;        (* [thingsboard.connect(...)], if it is called *)
  pt100_temperature : float32
}.

(** Whether a block of [loop] ran to its end or executed [return]. *)
Inductive flow : Type := Falls_through | Returns.

Definition otaCallback (title : option string) : OTA_Update_Callback :=
  {| ota_progress := Fn_onOtaProgress;
     ota_completed := Fn_onOtaCompleted;
     ota_title := title;
     ota_version := FIRMWARE_VERSION;
     ota_retries := OTA_RETRY_LIMIT;
     ota_packet_size := OTA_PACKET_SIZE |}.

(** main.cpp:226-250 *)
Definition session_block (env : tick) : M flow :=
  emit (Tb_connected (tb_connected env)) ;;
  if negb (tb_connected env) then
    write (Set_mqttConnected false) ;;
    token <- read mqttToken ;;
    emit (Tb_connect MQTT_SERVER token MQTT_PORT (tb_connect env)) ;;
    if negb (tb_connect env) then
      emit (Serial_println "MQTT connection failed") ;;
      ret Returns
    else
      write (Set_mqttConnected true) ;;
      title <- read firmwareTitle ;;
      emit (Firmware_Send_Info title FIRMWARE_VERSION) ;;
      emit (Firmware_Send_State "UPDATED") ;;
      emit (Subscribe_Firmware_Update (otaCallback title)) ;;
      ret Falls_through
  else ret Falls_through.

(** main.cpp:222-253, the body of the first [if] *)
Definition connectivity_block (fuel : nat) (env : tick) (now : Z) : M flow :=
  ensureWiFiConnection fuel (wifi_status env) ;;
  f <- session_block env ;;
  match f with
  | Returns => ret Returns
  | Falls_through =>
      write (Set_lastConnectionCheckMillis now) ;;
      ret Falls_through
  end.

(** main.cpp:255-271, the body of the second [if] *)
Definition telemetry_block (env : tick) (now : Z) : M unit :=
  write (Set_sendInitialTelemetry false) ;;
  emit (Pt100_temperature PT100_NOMINAL_RESISTANCE PT100_REFERENCE_RESISTOR
          (pt100_temperature env)) ;;
  write (Set_temperatureCelsius (pt100_temperature env)) ;;
  connected <- read mqttConnected ;;
  (if connected then
     t <- read temperatureCelsius ;;
     write (Set_telemetryJson "temperature_celsius" t) ;;
     doc <- read telemetryJson ;;
     write (Set_jsonBuffer (serializeJson doc)) ;;
     buf <- read jsonBuffer ;;
     emit (SendTelemetryJson buf) ;;
     write Clear_telemetryJson
   else ret tt) ;;
  write (Set_lastTelemetryMillis now).

Definition connection_check_due (now : Z) (g : globals) : bool :=
  CONNECTION_CHECK_MS <=? ulong_sub now (lastConnectionCheckMillis g).

Definition telemetry_due (now : Z) (g : globals) : bool :=
  (TELEMETRY_INTERVAL_MS <=? ulong_sub now (lastTelemetryMillis g))
  || sendInitialTelemetry g.

Definition loop (fuel : nat) (env : tick) : M unit :=
  let now := millis env in
  emit (Millis now) ;;
  due <- read (connection_check_due now) ;;
  f <- (if due then connectivity_block fuel env now else ret Falls_through) ;;
  match f with
  | Returns => ret tt
  | Falls_through =>
      due' <- read (telemetry_due now) ;;
      (if due' then telemetry_block env now else ret tt) ;;
      emit Tb_loop
  end.

(** ** The update session as the sketch sees it *)

(** Runs [m] and also returns the trace of this run as a value. *)
Definition traced {A} (m : M A) : M (list event) :=
  fun g =>
    match m g with
    | Some (Normal _ g' t) => Some (Normal t g' t)
    | Some (Restarted t) => Some (Restarted t)
    | None => None
    end.

(** The progress callback called once for each pair [(chunk, total)] of
    [calls].  The value is, call by call, the trace of the call and the
    value of [counter] after it. *)
Fixpoint progress_run (calls : list (Z * Z)) : M (list (list event * Z)) :=
  match calls with
  | [] => ret []
  | (chunk, total) :: rest =>
      t <- traced (onOtaProgress chunk total) ;;
      c <- read counter ;;
      r <- progress_run rest ;;
      ret ((t, c) :: r)
  end.

(** ** Sample inputs *)

Definition link_always_up : nat -> bool := fun _ => true.

(** The link comes up at poll [n]. *)
Definition link_up_from (n : nat) : nat -> bool := fun k => (n <=? k)%nat.

Definition sample_prefs : preferences :=
  {| pref_ssid := Some "plant";
     pref_password := Some "secret";
     pref_mac := Some [222; 173; 190; 239; 0; 1];
     pref_channel := Some 6;
     pref_mqtt_token := Some "TOKEN" |}.

(** The globals when [setup] has run on [sample_prefs] (see
    [setup_sample_prefs]). *)
Definition globals_booted : globals :=
  {| firmwareTitle := Some "PT100_Cold_Storage";
     wifiSSID := "plant";
     wifiPassword := "secret";
     routerMAC := [222; 173; 190; 239; 0; 1];
     wifiChannel := 6;
     mqttToken := "TOKEN";
     lastTelemetryMillis := 0;
     lastConnectionCheckMillis := 0;
     sendInitialTelemetry := true;
     temperatureCelsius := float_zero;
     mqttConnected := false;
     telemetryJson := [];
     jsonBuffer := "";
     counter := 0 |}.

(** Five seconds after the reset: the session is down and cannot be
    established. *)
Definition tick_establish_fails (sample : float32) : tick :=
  {| millis := 5000; wifi_status := link_always_up;
     tb_connected := false; tb_connect := false;
     pt100_temperature := sample |}.

(** One millisecond later: the session can be established. *)
Definition tick_establish_succeeds (sample : float32) : tick :=
  {| millis := 5001; wifi_status := link_always_up;
     tb_connected := false; tb_connect := true;
     pt100_temperature := sample |}.

(** The session is up. *)
Definition tick_connected (now : Z) (sample : float32) : tick :=
  {| millis := now; wifi_status := link_always_up;
     tb_connected := true; tb_connect := true;
     pt100_temperature := sample |}.

(** The link is down at the first two polls, the session is down and can be
    established. *)
Definition tick_link_drop (now : Z) (sample : float32) : tick :=
  {| millis := now; wifi_status := link_up_from 2;
     tb_connected := false; tb_connect := true;
     pt100_temperature := sample |}.

(** An instance of the abstract floats for running the model: a sample is
    an integer number of tenths of a degree. *)
Definition sample_serialize (doc : list (string * Z)) : string :=
  match doc with
  | [] => "{}"
  | _ :: _ => "{temperature_celsius}"
  end.

Definition sample_percent (chunk total : Z) : Z := chunk * 100 / total.

(** ** Reading a trace *)

(** The events of [connectWiFi] and [ensureWiFiConnection]. *)
Definition link_event (e : event) : bool :=
  match e with
  | WiFi_status _ | WiFi_begin _ _ _ _ | Delay _ | Serial_print _
  | Serial_println _ => true
  | _ => false
  end.

(** The link is reported up at one of the polls [0 .. fuel]. *)
Definition link_up_within (fuel : nat) (status : nat -> bool) : bool :=
  existsb status (seq 0 (S fuel)).

(** Classes of events; [occurs p t] tells whether the trace [t] has an event
    of the class [p], [count p t] how many. *)

(** [thingsboard.connected()] is called at the start of the connectivity
    block's session part and nowhere else. *)
Definition is_session_query (e : event) : bool :=
  match e with Tb_connected _ => true | _ => false end.

(** The sensor is read in the telemetry block and nowhere else. *)
Definition is_sensor_read (e : event) : bool :=
  match e with Pt100_temperature _ _ _ => true | _ => false end.

(** A session-establish call, [thingsboard.connect], whatever its result. *)
Definition is_establish (e : event) : bool :=
  match e with Tb_connect _ _ _ _ => true | _ => false end.

(** A session-establish call with result [r]. *)
Definition is_establish_with (r : bool) (e : event) : bool :=
  match e with Tb_connect _ _ _ r' => Bool.eqb r r' | _ => false end.

Definition is_publish (e : event) : bool :=
  match e with SendTelemetryJson _ => true | _ => false end.

Definition is_poll (e : event) : bool :=
  match e with Tb_loop => true | _ => false end.

Definition is_firmware_send (e : event) : bool :=
  match e with
  | Firmware_Send_Info _ _ | Firmware_Send_State _ => true
  | _ => false
  end.

Definition is_subscribe (e : event) : bool :=
  match e with Subscribe_Firmware_Update _ => true | _ => false end.

Definition is_progress_attribute (e : event) : bool :=
  match e with SendAttributeData _ _ => true | _ => false end.

Definition is_restart (e : event) : bool :=
  match e with Esp_restart => true | _ => false end.

Definition writes_mqttConnected (e : event) : bool :=
  match e with Store (Set_mqttConnected _) => true | _ => false end.

Definition occurs (p : event -> bool) (t : list event) : bool := existsb p t.

Definition count (p : event -> bool) (t : list event) : nat :=
  List.length (filter p t).

(** The globals after the assignments of a trace, in order. *)
Definition replay_step (g : globals) (e : event) : globals :=
  match e with Store s => apply_store s g | _ => g end.

Definition replay (t : list event) (g : globals) : globals :=
  fold_left replay_step t g.

(** ** Runs of [loop] *)

(** The Arduino core calls [loop] again and again.  [run_loop] is a finite
    prefix of that, one [tick] per call; its value lists, call by call, the
    time of the call and the trace of the call. *)
Fixpoint run_loop (fuel : nat) (envs : list tick) : M (list (Z * list event)) :=
  match envs with
  | [] => ret []
  | env :: rest =>
      t <- traced (loop fuel env) ;;
      r <- run_loop fuel rest ;;
      ret ((millis env, t) :: r)
  end.

(** The calls of a run in which the sensor was read, and those in which an
    update subscription was made. *)
Definition sensor_read_times (calls : list (Z * list event)) : list Z :=
  map fst (filter (fun c => occurs is_sensor_read (snd c)) calls).

Definition is_wifi_begin (e : event) : bool :=
  match e with WiFi_begin _ _ _ _ => true | _ => false end.

(** The events of the [while] of [connectWiFi]. *)
Definition wait_event (e : event) : bool :=
  match e with
  | WiFi_status _ | Delay _ | Serial_print _ => true
  | _ => false
  end.

(** Each time of [times] is at least the telemetry period after the one
    before it, the first one after [last], in 32-bit arithmetic. *)
Fixpoint well_spaced (last : Z) (times : list Z) : bool :=
  match times with
  | [] => true
  | t :: rest =>
      (TELEMETRY_INTERVAL_MS <=? ulong_sub t last) && well_spaced t rest
  end.

(** One turn of the [while] of [connectWiFi] with the link still down. *)
Definition wifi_retry : list event :=
  [WiFi_status false; Delay 500; Serial_print "."].

(** ** The Preferences store and the credentials loader
    (credentials_loader.cpp)

    The loader sketch and the gateway sketch meet in the flash store of the
    Preferences library: typed values under a namespace and a key.  A [get]
    gives the value last [put] under the key; it gives the caller's default
    when the key is absent or holds a value of another type. *)

Inductive pref_value : Type :=
| Pref_string (s : string)
| Pref_bytes (b : list Z)
| Pref_int (z : Z).

(** Namespace and key, with the value. *)
Definition nvs : Type := list ((string * string) * pref_value).

Definition same_key (a b : string * string) : bool :=
  String.eqb (fst a) (fst b) && String.eqb (snd a) (snd b).

Fixpoint nvs_get (k : string * string) (store : nvs) : option pref_value :=
  match store with
  | [] => None
  | (k', v) :: rest => if same_key k' k then Some v else nvs_get k rest
  end.

Fixpoint nvs_put (k : string * string) (v : pref_value) (store : nvs) : nvs :=
  match store with
  | [] => [(k, v)]
  | (k', w) :: rest =>
      if same_key k' k then (k', v) :: rest else (k', w) :: nvs_put k v rest
  end.

(** The constants of [secrets.h], which is not part of the sources. *)
Record secrets : Type := mkSecrets {
  SECRET_SSID : string;
  SECRET_SSID_PASS : string;
  SECRET_MAC : list Z;
  SECRET_WIFI_CHANNEL : Z;
  SECRET_MQTT_TOKEN : string
}.

(** [setup] of credentials_loader.cpp (lines 6-20): the store after it and
    its trace. *)
Definition loader_setup (sec : secrets) (store : nvs) : nvs * list event :=
  let s1 := nvs_put ("credentials", "ssid") (Pref_string (SECRET_SSID sec)) store in
  let s2 := nvs_put ("credentials", "password")
              (Pref_string (SECRET_SSID_PASS sec)) s1 in
  let s3 := nvs_put ("credentials", "mac") (Pref_bytes (SECRET_MAC sec)) s2 in
  let s4 := nvs_put ("credentials", "channel")
              (Pref_int (SECRET_WIFI_CHANNEL sec)) s3 in
  let s5 := nvs_put ("credentials", "mqtt_token")
              (Pref_string (SECRET_MQTT_TOKEN sec)) s4 in
  (s5, [Serial_begin 115200;
        Preferences_begin "credentials" false;
        Preferences_end;
        Serial_println "Credentials saved successfully"]).

(** What the reads of [setup] in main.cpp (lines 199-203) find in a store.
    [getBytes] copies the stored bytes to the start of the buffer when there
    are some and they fit in its 6 bytes. *)
Definition stored_string (store : nvs) (key : string) : option string :=
  match nvs_get ("credentials", key) store with
  | Some (Pref_string s) => Some s
  | _ => None
  end.

Definition stored_int (store : nvs) (key : string) : option Z :=
  match nvs_get ("credentials", key) store with
  | Some (Pref_int z) => Some z
  | _ => None
  end.

Definition stored_bytes (store : nvs) (key : string) (buf : list Z)
  : option (list Z) :=
  match nvs_get ("credentials", key) store with
  | Some (Pref_bytes b) =>
      if (0 <? List.length b)%nat && (List.length b <=? 6)%nat
      then Some (b ++ skipn (List.length b) buf)
      else None
  | _ => None
  end.

Definition read_credentials (store : nvs) (buf : list Z) : preferences :=
  {| pref_ssid := stored_string store "ssid";
     pref_password := stored_string store "password";
     pref_mac := stored_bytes store "mac" buf;
     pref_channel := stored_int store "channel";
     pref_mqtt_token := stored_string store "mqtt_token" |}.

(** [setup] of main.cpp on a store. *)
Definition boot (fuel : nat) (store : nvs) (status : nat -> bool) : M unit :=
  buf <- read routerMAC ;;
  setup fuel (read_credentials store buf) status.

(** The globals that [loop] writes are the timers, the two flags, the
    sample and the JSON buffers: [same_configuration] says that all the
    others are equal. *)
Definition same_configuration (g g' : globals) : Prop :=
  firmwareTitle g' = firmwareTitle g
  /\ wifiSSID g' = wifiSSID g
  /\ wifiPassword g' = wifiPassword g
  /\ routerMAC g' = routerMAC g
  /\ wifiChannel g' = wifiChannel g
  /\ mqttToken g' = mqttToken g
  /\ counter g' = counter g.

(** More sample inputs. *)
Definition sample_secrets : secrets :=
  {| SECRET_SSID := "plant";
     SECRET_SSID_PASS := "secret";
     SECRET_MAC := [222; 173; 190; 239; 0; 1];
     SECRET_WIFI_CHANNEL := 6;
     SECRET_MQTT_TOKEN := "TOKEN" |}.

(** A tick at [now] with the session down and not to be established. *)
Definition tick_fails_at (now : Z) (sample : float32) : tick :=
  {| millis := now; wifi_status := link_always_up;
     tb_connected := false; tb_connect := false;
     pt100_temperature := sample |}.

(** ** The link functions *)

Arguments ulong_sub : simpl never.

Lemma wifi_wait_inv (fuel : nat) (status : nat -> bool) :
  forall k g o, wifi_wait fuel status k g = Some o ->
  exists w, o = Normal tt g w /\ forallb link_event w = true.
Proof.
  induction fuel as [|fuel IH]; intros k g o H; [discriminate|].
  cbn [wifi_wait] in H. unfold bind, emit, ret in H.
  destruct (status k).
  - inversion H; subst. now eexists.
  - destruct (wifi_wait fuel status (S k) g) as [o'|] eqn:E; [|discriminate].
    destruct (IH _ _ _ E) as [w [-> Hw]].
    inversion H; subst. eexists; split; [reflexivity|]. simpl. exact Hw.
Qed.

Lemma wifi_wait_returns (status : nat -> bool) :
  forall fuel k g, existsb status (seq k fuel) = true ->
  exists w, wifi_wait fuel status k g = Some (Normal tt g w).
Proof.
  induction fuel as [|fuel IH]; intros k g H; [discriminate|].
  cbn [wifi_wait]. unfold bind, emit, ret.
  cbn [seq existsb] in H.
  destruct (status k); [now eexists|].
  destruct (IH (S k) g H) as [w ->]. now eexists.
Qed.

Lemma connectWiFi_inv (fuel : nat) (status : nat -> bool) (k : nat) g o :
  connectWiFi fuel status k g = Some o ->
  exists w, o = Normal tt g w /\ forallb link_event w = true.
Proof.
  unfold connectWiFi, bind, emit, read. intros H.
  destruct (wifi_wait fuel status k g) as [o'|] eqn:E; [|discriminate].
  destruct (wifi_wait_inv _ _ _ _ _ E) as [w [-> Hw]].
  inversion H; subst. eexists; split; [reflexivity|].
  simpl. rewrite forallb_app, Hw. reflexivity.
Qed.

Lemma connectWiFi_returns (fuel : nat) (status : nat -> bool) (k : nat) g :
  existsb status (seq k fuel) = true ->
  exists w, connectWiFi fuel status k g = Some (Normal tt g w).
Proof.
  intros H. unfold connectWiFi, bind, emit, read.
  destruct (wifi_wait_returns status fuel k g H) as [w ->]. now eexists.
Qed.

Lemma ensureWiFiConnection_inv (fuel : nat) (status : nat -> bool) g o :
  ensureWiFiConnection fuel status g = Some o ->
  exists w, o = Normal true g w /\ forallb link_event w = true.
Proof.
  unfold ensureWiFiConnection, bind, emit, ret. intros H.
  destruct (status 0%nat).
  - inversion H; subst. now eexists.
  - destruct (connectWiFi fuel status 1 g) as [o'|] eqn:E; [|discriminate].
    destruct (connectWiFi_inv _ _ _ _ _ E) as [w [-> Hw]].
    inversion H; subst. eexists; split; [reflexivity|].
    simpl. rewrite forallb_app, Hw. reflexivity.
Qed.

Lemma ensureWiFiConnection_returns (fuel : nat) (status : nat -> bool) g :
  link_up_within fuel status = true ->
  exists w, ensureWiFiConnection fuel status g = Some (Normal true g w).
Proof.
  unfold link_up_within. cbn [seq existsb]. intros H.
  unfold ensureWiFiConnection, bind, emit, ret.
  destruct (status 0%nat); [now eexists|].
  destruct (connectWiFi_returns fuel status 1 g H) as [w ->]. now eexists.
Qed.

(** When the first poll finds the link up, nothing else is done. *)
Lemma ensureWiFiConnection_up (fuel : nat) (status : nat -> bool) g :
  status 0%nat = true ->
  ensureWiFiConnection fuel status g = Some (Normal true g [WiFi_status true]).
Proof.
  intros H. unfold ensureWiFiConnection, bind, emit, ret. now rewrite H.
Qed.

Lemma ensureWiFiConnection_total (fuel : nat) (status : nat -> bool) g :
  link_up_within fuel status = true ->
  exists w, ensureWiFiConnection fuel status g = Some (Normal true g w)
            /\ forallb link_event w = true.
Proof.
  intros H. destruct (ensureWiFiConnection_returns fuel status g H) as [w E].
  exists w. split; [exact E|].
  destruct (ensureWiFiConnection_inv _ _ _ _ E) as [w' [Eq Hw]].
  now inversion Eq; subst.
Qed.

(** A class of events that has no link event does not occur in the trace of
    the link functions. *)
Lemma link_events_none (p : event -> bool) (w : list event) :
  (forall e, link_event e = true -> p e = false) ->
  forallb link_event w = true -> filter p w = [].
Proof.
  intros Hp. induction w as [|e w IH]; [reflexivity|].
  cbn [forallb filter]. intros H. apply andb_prop in H as [He Hw].
  rewrite (Hp e He). exact (IH Hw).
Qed.

Lemma link_events_absent (p : event -> bool) (w : list event) :
  (forall e, link_event e = true -> p e = false) ->
  forallb link_event w = true -> existsb p w = false.
Proof.
  intros Hp Hw. pose proof (link_events_none p w Hp Hw) as Hf.
  induction w as [|e w IH]; [reflexivity|].
  cbn [existsb filter] in *. destruct (p e); [discriminate|].
  cbn [forallb] in Hw. apply andb_prop in Hw as [_ Hw]. now apply IH.
Qed.

Lemma replay_link (w : list event) g :
  forallb link_event w = true -> fold_left replay_step w g = g.
Proof.
  revert g. induction w as [|e w IH]; intros g H; [reflexivity|].
  cbn [forallb] in H. apply andb_prop in H as [He Hw].
  cbn [fold_left]. destruct e; try discriminate; now apply IH.
Qed.

Ltac no_link_event := intros []; simpl; intros; (reflexivity || discriminate).

(** Evaluates the classes of events over a trace built from the link events
    [w] and explicit events. *)
Ltac trace_simpl Hw :=
  unfold occurs, count, replay in *;
  repeat first
    [ progress cbn -[Z.leb ulong_sub]
    | rewrite existsb_app | rewrite filter_app | rewrite length_app
    | rewrite fold_left_app
    | rewrite link_events_absent by first [exact Hw | no_link_event]
    | rewrite link_events_none by first [exact Hw | no_link_event]
    | rewrite replay_link by exact Hw ].

(** Runs [loop] on globals given as a record: splits on the connectivity
    timer, replaces the link part by its trace [w], and splits on what the
    session client and the telemetry test answer. *)
Ltac loop_cases Hlink w Hw :=
  unfold loop, bind, emit, read, connection_check_due in *;
  cbn [millis lastConnectionCheckMillis] in *;
  match goal with
  | |- context [CONNECTION_CHECK_MS <=? ulong_sub ?n ?l] =>
      destruct (CONNECTION_CHECK_MS <=? ulong_sub n l) eqn:?Hdue
  end;
  [ unfold connectivity_block, bind;
    match goal with
    | |- context [ensureWiFiConnection ?f ?s ?g] =>
        let E := fresh "E" in
        destruct (ensureWiFiConnection_total f s g Hlink) as (w & E & Hw);
        rewrite E; clear E
    end
  | pose (w := @nil event);
    pose proof (eq_refl : forallb link_event w = true) as Hw ];
  unfold session_block, telemetry_due, telemetry_block,
    bind, emit, read, write, ret in *;
  match goal with
  | |- context [tb_connected ?e] =>
      destruct (tb_connected e) eqn:?Hsession;
      destruct (tb_connect e) eqn:?Hestablish
  | _ => idtac
  end;
  cbn -[Z.leb ulong_sub] in *;
  match goal with
  | |- context [TELEMETRY_INTERVAL_MS <=? ulong_sub ?n ?l] =>
      destruct (TELEMETRY_INTERVAL_MS <=? ulong_sub n l) eqn:?Htimer
  | _ => idtac
  end;
  cbn -[Z.leb ulong_sub] in *;
  try discriminate.

Ltac destruct_globals g :=
  destruct g as [ft ssid pw mac ch tok lt lc si tc mc tj jb cn];
  cbn [firmwareTitle wifiSSID wifiPassword routerMAC wifiChannel mqttToken
       lastTelemetryMillis lastConnectionCheckMillis sendInitialTelemetry
       temperatureCelsius mqttConnected telemetryJson jsonBuffer counter] in *.

(** ** The connectivity supervisor *)

(** C10. When the connectivity check is due, the session is down and the
    session-establish call fails, [loop] returns right after the log line:
    the sensor is not read, nothing is published, and
    [sendInitialTelemetry] and [lastTelemetryMillis] keep their values,
    whatever the telemetry timer and the immediate-send flag say. *)
Theorem failed_establish_skips_telemetry
  (fuel : nat) (env : tick) (g : globals) :
  link_up_within fuel (wifi_status env) = true ->
  connection_check_due (millis env) g = true ->
  tb_connected env = false ->
  tb_connect env = false ->
  exists g' t w,
    loop fuel env g = Some (Normal tt g' t)
    /\ forallb link_event w = true
    /\ t = Millis (millis env) :: w ++
           [Tb_connected false;
            Store (Set_mqttConnected false);
            Tb_connect MQTT_SERVER (mqttToken g) MQTT_PORT false;
            Serial_println "MQTT connection failed"]
    /\ occurs is_sensor_read t = false
    /\ occurs is_publish t = false
    /\ sendInitialTelemetry g' = sendInitialTelemetry g
    /\ lastTelemetryMillis g' = lastTelemetryMillis g
    /\ g' = apply_store (Set_mqttConnected false) g.
Proof.
  intros Hlink Hdue Hc He. destruct_globals g.
  loop_cases Hlink w Hw; try congruence.
  all: exists (mkGlobals ft ssid pw mac ch tok lt lc si tc false tj jb cn).
  all: eexists; exists w; split; [reflexivity|]; split; [exact Hw|].
  all: rewrite ?app_nil_r, <- ?app_assoc; cbn [app].
  all: split; [reflexivity|].
  all: trace_simpl Hw.
  all: repeat split; reflexivity.
Qed.

(** C3, as the code has it.  [thingsboard.loop()] is called once, at the
    end of every execution of [loop] that reaches its end, whatever the
    telemetry block did; the exception is the execution in which the
    connectivity check is due, the session is down and the session-establish
    call fails: it returns before the poll. *)
Theorem poll_unless_establish_fails
  (fuel : nat) (env : tick) (g : globals) :
  link_up_within fuel (wifi_status env) = true ->
  exists g' t,
    loop fuel env g = Some (Normal tt g' t)
    /\ count is_poll t =
       (if connection_check_due (millis env) g
           && negb (tb_connected env) && negb (tb_connect env)
        then 0 else 1)%nat
    /\ occurs is_poll t = negb (occurs (is_establish_with false) t).
Proof.
  intros Hlink. destruct_globals g.
  loop_cases Hlink w Hw.
  all: destruct si, mc; cbn -[Z.leb ulong_sub].
  all: do 2 eexists; (split; [reflexivity|]).
  all: trace_simpl Hw; split; reflexivity.
Qed.

(** C8. When the connectivity check is due, the link is up and the session
    client reports connected, the connectivity block polls the link, queries
    the session and sets its timer mark, and that is all: no
    session-establish call, no write of [mqttConnected], no firmware send, no
    subscription; the flag keeps its value. *)
Theorem connected_check_is_idle
  (fuel : nat) (env : tick) (g : globals) :
  connection_check_due (millis env) g = true ->
  wifi_status env 0%nat = true ->
  tb_connected env = true ->
  connectivity_block fuel env (millis env) g =
    Some (Normal Falls_through
            (apply_store (Set_lastConnectionCheckMillis (millis env)) g)
            [WiFi_status true; Tb_connected true;
             Store (Set_lastConnectionCheckMillis (millis env))])
  /\ exists g' rest,
      let t := Millis (millis env) :: WiFi_status true :: Tb_connected true
               :: Store (Set_lastConnectionCheckMillis (millis env)) :: rest in
      loop fuel env g = Some (Normal tt g' t)
      /\ occurs is_establish t = false
      /\ occurs writes_mqttConnected t = false
      /\ occurs is_firmware_send t = false
      /\ occurs is_subscribe t = false
      /\ mqttConnected g' = mqttConnected g.
Proof.
  intros Hdue Hup Hc. split.
  - unfold connectivity_block, bind.
    rewrite (ensureWiFiConnection_up fuel _ g Hup).
    unfold session_block, bind, emit, write, ret. rewrite Hc. reflexivity.
  - destruct_globals g.
    unfold loop, bind, emit, read. cbn [millis]. rewrite Hdue.
    unfold connectivity_block, bind.
    rewrite (ensureWiFiConnection_up fuel _ _ Hup).
    unfold session_block, telemetry_due, telemetry_block,
      bind, emit, read, write, ret.
    rewrite Hc. cbn -[Z.leb ulong_sub].
    destruct (TELEMETRY_INTERVAL_MS <=? ulong_sub (millis env) lt);
      destruct si, mc; cbn -[Z.leb ulong_sub];
      do 2 eexists; (split; [reflexivity|]); repeat split; reflexivity.
Qed.

(** C6. When the connectivity check is due, the session is down and the
    session-establish call succeeds, [loop] does, in this order: set
    [mqttConnected], send the firmware title and version, send the state
    "UPDATED", subscribe to firmware updates with the two callbacks, the
    retry limit 24 and the packet size 4096.  The subscription is made once
    for each successful session-establish call and at no other time. *)
Theorem establish_then_arm
  (fuel : nat) (env : tick) (g : globals) :
  link_up_within fuel (wifi_status env) = true ->
  exists g' t,
    loop fuel env g = Some (Normal tt g' t)
    /\ count is_subscribe t = count (is_establish_with true) t
    /\ count is_subscribe t =
       (if connection_check_due (millis env) g
           && negb (tb_connected env) && tb_connect env
        then 1 else 0)%nat
    /\ (connection_check_due (millis env) g = true ->
        tb_connected env = false ->
        tb_connect env = true ->
        exists w rest,
          forallb link_event w = true
          /\ t = Millis (millis env) :: w ++
                 [Tb_connected false;
                  Store (Set_mqttConnected false);
                  Tb_connect MQTT_SERVER (mqttToken g) MQTT_PORT true;
                  Store (Set_mqttConnected true);
                  Firmware_Send_Info (firmwareTitle g) "1.3.0";
                  Firmware_Send_State "UPDATED";
                  Subscribe_Firmware_Update
                    (mkOta Fn_onOtaProgress Fn_onOtaCompleted
                       (firmwareTitle g) "1.3.0" 24 4096);
                  Store (Set_lastConnectionCheckMillis (millis env))]
                 ++ rest
          /\ mqttConnected g' = true).
Proof.
  intros Hlink. destruct_globals g.
  loop_cases Hlink w Hw.
  all: destruct si, mc; cbn -[Z.leb ulong_sub].
  all: do 2 eexists; (split; [reflexivity|]).
  all: trace_simpl Hw; (split; [reflexivity|]); (split; [reflexivity|]).
  all: intros; try discriminate.
  all: exists w; eexists; (split; [exact Hw|]).
  all: rewrite <- ?app_assoc; cbn [app]; split; reflexivity.
Qed.

(** ** The link functions do not depend on the other globals *)

Lemma wifi_wait_frame (fuel : nat) (status : nat -> bool) :
  forall k g w (g2 : globals),
  wifi_wait fuel status k g = Some (Normal tt g w) ->
  wifi_wait fuel status k g2 = Some (Normal tt g2 w).
Proof.
  induction fuel as [|fuel IH]; intros k g w g2 H; [discriminate|].
  cbn [wifi_wait] in *. unfold bind, emit, ret in *.
  destruct (status k).
  - inversion H; subst. reflexivity.
  - destruct (wifi_wait fuel status (S k) g) as [o|] eqn:E; [|discriminate].
    destruct (wifi_wait_inv _ _ _ _ _ E) as [w' [-> _]].
    rewrite (IH _ _ _ g2 E). inversion H; subst. reflexivity.
Qed.

Lemma ensureWiFiConnection_frame (fuel : nat) (status : nat -> bool) g w g2 :
  wifiSSID g2 = wifiSSID g -> wifiPassword g2 = wifiPassword g ->
  wifiChannel g2 = wifiChannel g -> routerMAC g2 = routerMAC g ->
  ensureWiFiConnection fuel status g = Some (Normal true g w) ->
  ensureWiFiConnection fuel status g2 = Some (Normal true g2 w).
Proof.
  intros H1 H2 H3 H4. unfold ensureWiFiConnection, connectWiFi, bind, emit, read, ret.
  destruct (status 0%nat).
  - intros H. inversion H; subst. reflexivity.
  - rewrite H1, H2, H3, H4.
    destruct (wifi_wait fuel status 1 g) as [o|] eqn:E; [|discriminate].
    destruct (wifi_wait_inv _ _ _ _ _ E) as [w' [-> _]].
    rewrite (wifi_wait_frame _ _ _ _ _ g2 E).
    intros H. inversion H; subst. reflexivity.
Qed.

Lemma connectWiFi_total (fuel : nat) (status : nat -> bool) (k : nat) g :
  existsb status (seq k fuel) = true ->
  exists w, connectWiFi fuel status k g = Some (Normal tt g w)
            /\ forallb link_event w = true.
Proof.
  intros H. destruct (connectWiFi_returns fuel status k g H) as [w E].
  exists w. split; [exact E|].
  destruct (connectWiFi_inv _ _ _ _ _ E) as [w' [Eq Hw]].
  now inversion Eq; subst.
Qed.

(** ** One execution of [loop] *)

(** What one execution of [loop] does to the two timers and to the
    immediate-send flag. *)
Lemma loop_timers (fuel : nat) (env : tick) (g : globals) :
  link_up_within fuel (wifi_status env) = true ->
  exists g' t,
    loop fuel env g = Some (Normal tt g' t)
    /\ occurs is_session_query t = connection_check_due (millis env) g
    /\ (occurs (is_establish_with false) t = false ->
        occurs is_sensor_read t = telemetry_due (millis env) g
        /\ lastConnectionCheckMillis g' =
             (if connection_check_due (millis env) g then millis env
              else lastConnectionCheckMillis g)
        /\ lastTelemetryMillis g' =
             (if telemetry_due (millis env) g then millis env
              else lastTelemetryMillis g)
        /\ sendInitialTelemetry g' =
             (if telemetry_due (millis env) g then false
              else sendInitialTelemetry g))
    /\ (occurs (is_establish_with false) t = true ->
        occurs is_sensor_read t = false
        /\ sendInitialTelemetry g' = sendInitialTelemetry g
        /\ lastTelemetryMillis g' = lastTelemetryMillis g).
Proof.
  intros Hlink. destruct_globals g.
  loop_cases Hlink w Hw.
  all: destruct si, mc; cbn -[Z.leb ulong_sub].
  all: do 2 eexists; (split; [reflexivity|]).
  all: trace_simpl Hw; rewrite ?Htimer; cbn -[Z.leb ulong_sub].
  all: repeat split; intros; try discriminate; reflexivity.
Qed.

(** The trace of [loop] does not depend on the sample and on the payload
    that the globals hold from earlier executions. *)
Lemma loop_sample_irrelevant
  (fuel : nat) (env : tick) (g g' : globals) (t : list event)
  (v : float32) (b : string) :
  loop fuel env g = Some (Normal tt g' t) ->
  exists g2,
    loop fuel env
      (apply_store (Set_temperatureCelsius v) (apply_store (Set_jsonBuffer b) g))
    = Some (Normal tt g2 t).
Proof.
  destruct_globals g. cbn [apply_store].
  unfold loop, bind, emit, read, connection_check_due.
  cbn [millis lastConnectionCheckMillis].
  destruct (CONNECTION_CHECK_MS <=? ulong_sub (millis env) lc).
  - unfold connectivity_block, bind.
    match goal with
    | |- context [ensureWiFiConnection ?f ?s ?g0] =>
        destruct (ensureWiFiConnection f s g0) as [o|] eqn:E; [|discriminate];
        destruct (ensureWiFiConnection_inv _ _ _ _ E) as [w [-> Hw]];
        rewrite (ensureWiFiConnection_frame f s g0 w
                   (mkGlobals ft ssid pw mac ch tok lt lc si v mc tj b cn)
                   eq_refl eq_refl eq_refl eq_refl E)
    end.
    unfold session_block, telemetry_due, telemetry_block,
      bind, emit, read, write, ret.
    destruct (tb_connected env), (tb_connect env); cbn -[Z.leb ulong_sub].
    all: try destruct (TELEMETRY_INTERVAL_MS <=? ulong_sub (millis env) lt).
    all: destruct si, mc; cbn -[Z.leb ulong_sub].
    all: intros H; inversion H; subst; eexists; reflexivity.
  - unfold telemetry_due, telemetry_block, bind, emit, read, write, ret.
    cbn -[Z.leb ulong_sub].
    destruct (TELEMETRY_INTERVAL_MS <=? ulong_sub (millis env) lt).
    all: destruct si, mc; cbn -[Z.leb ulong_sub].
    all: intros H; inversion H; subst; eexists; reflexivity.
Qed.

(** ** The two timers *)

(** C1, as the code has it.  The connectivity block is entered if and only
    if [now - lastConnectionCheckMillis >= 1000], in 32-bit arithmetic.  In
    an execution of [loop] that is not ended by a failed session-establish
    call: the telemetry block runs if and only if
    [now - lastTelemetryMillis >= 900000] or [sendInitialTelemetry] is set;
    a block that ran has set its mark to [now], the telemetry block whether
    or not it published; and in the execution that follows, a block runs
    again by its timer only when a full period has passed since [now].
    (What a failed session-establish call leaves behind is not part of this
    statement.) *)
Theorem timers_fire_and_reset
  (fuel : nat) (env env2 : tick) (g : globals) :
  link_up_within fuel (wifi_status env) = true ->
  link_up_within fuel (wifi_status env2) = true ->
  exists g' t g2 t2,
    loop fuel env g = Some (Normal tt g' t)
    /\ loop fuel env2 g' = Some (Normal tt g2 t2)
    /\ occurs is_session_query t =
       (CONNECTION_CHECK_MS <=?
          ulong_sub (millis env) (lastConnectionCheckMillis g))
    /\ (occurs (is_establish_with false) t = false ->
        occurs is_sensor_read t =
          ((TELEMETRY_INTERVAL_MS <=?
              ulong_sub (millis env) (lastTelemetryMillis g))
           || sendInitialTelemetry g)
        /\ (occurs is_session_query t = true ->
            lastConnectionCheckMillis g' = millis env
            /\ occurs is_session_query t2 =
                 (CONNECTION_CHECK_MS <=?
                    ulong_sub (millis env2) (millis env)))
        /\ (occurs is_sensor_read t = true ->
            lastTelemetryMillis g' = millis env
            /\ (occurs (is_establish_with false) t2 = false ->
                occurs is_sensor_read t2 =
                  (TELEMETRY_INTERVAL_MS <=?
                     ulong_sub (millis env2) (millis env))))).
Proof.
  intros Hlink Hlink2.
  destruct (loop_timers fuel env g Hlink) as (g' & t & E & Hc & Hok & _).
  destruct (loop_timers fuel env2 g' Hlink2) as (g2 & t2 & E2 & Hc2 & Hok2 & _).
  exists g', t, g2, t2. split; [exact E|]. split; [exact E2|].
  split; [exact Hc|]. intros Hnf.
  destruct (Hok Hnf) as (Ht & Hlc & Hlt & Hsi).
  split; [exact Ht|]. split.
  - intros Hq. rewrite Hc in Hq. rewrite Hq in Hlc.
    split; [exact Hlc|]. rewrite Hc2. unfold connection_check_due.
    now rewrite Hlc.
  - intros Hr. rewrite Ht in Hr. rewrite Hr in Hlt, Hsi.
    split; [exact Hlt|]. intros Hnf2.
    destruct (Hok2 Hnf2) as (Ht2 & _). rewrite Ht2. unfold telemetry_due.
    rewrite Hlt, Hsi. apply orb_false_r.
Qed.

(** ** The immediate-send flag *)

Lemma setup_returns (fuel : nat) (prefs : preferences) (status : nat -> bool)
  (g : globals) :
  existsb status (seq 0 fuel) = true ->
  exists g' t,
    setup fuel prefs status g = Some (Normal tt g' t)
    /\ g' = replay t g
    /\ occurs writes_mqttConnected t = false
    /\ mqttConnected g' = mqttConnected g
    /\ sendInitialTelemetry g' = sendInitialTelemetry g
    /\ lastTelemetryMillis g' = lastTelemetryMillis g
    /\ lastConnectionCheckMillis g' = lastConnectionCheckMillis g.
Proof.
  intros H. destruct_globals g. destruct prefs as [p1 p2 p3 p4 p5].
  unfold setup, bind, emit, write, ret. cbn [pref_mac].
  destruct p3 as [bytes|]; cbn -[connectWiFi].
  all: match goal with
       | |- context [connectWiFi ?f ?s ?k ?g0] =>
           destruct (connectWiFi_total f s k g0 H) as (w & E & Hw); rewrite E
       end.
  all: do 2 eexists; (split; [reflexivity|]).
  all: trace_simpl Hw; repeat split; reflexivity.
Qed.

(** C7.  [sendInitialTelemetry] is [true] when the program starts and
    [setup] leaves it so.  While it is set, an execution of [loop] that is
    not ended by a failed session-establish call runs the telemetry block,
    whatever the telemetry timer says, clears the flag and sets the
    telemetry mark to [now]; an execution ended by a failed
    session-establish call leaves the flag set.  Once the flag is clear it
    stays clear, and the telemetry block runs only when
    [now - lastTelemetryMillis >= 900000]. *)
Theorem initial_telemetry_once
  (fuel : nat) (prefs : preferences) (status : nat -> bool)
  (env : tick) (g : globals) :
  existsb status (seq 0 fuel) = true ->
  link_up_within fuel (wifi_status env) = true ->
  sendInitialTelemetry globals_init = true
  /\ (exists g0 t0,
        setup fuel prefs status globals_init = Some (Normal tt g0 t0)
        /\ sendInitialTelemetry g0 = true
        /\ lastTelemetryMillis g0 = 0)
  /\ exists g' t,
      loop fuel env g = Some (Normal tt g' t)
      /\ (sendInitialTelemetry g = true ->
          occurs (is_establish_with false) t = false ->
          occurs is_sensor_read t = true
          /\ sendInitialTelemetry g' = false
          /\ lastTelemetryMillis g' = millis env)
      /\ (sendInitialTelemetry g = true ->
          occurs (is_establish_with false) t = true ->
          occurs is_sensor_read t = false
          /\ sendInitialTelemetry g' = true)
      /\ (sendInitialTelemetry g = false ->
          sendInitialTelemetry g' = false
          /\ occurs is_sensor_read t =
               (TELEMETRY_INTERVAL_MS <=?
                  ulong_sub (millis env) (lastTelemetryMillis g))
               && negb (occurs (is_establish_with false) t)).
Proof.
  intros Hboot Hlink. split; [reflexivity|]. split.
  - destruct (setup_returns fuel prefs status globals_init Hboot)
      as (g0 & t0 & E & _ & _ & _ & Hsi & Hlt & _).
    exists g0, t0. repeat split; assumption.
  - destruct (loop_timers fuel env g Hlink) as (g' & t & E & _ & Hok & Hfail).
    exists g', t. split; [exact E|].
    unfold telemetry_due in Hok. repeat split.
    + destruct (Hok H0) as (Ht & _). rewrite Ht, H. apply orb_true_r.
    + destruct (Hok H0) as (_ & _ & _ & Hsi).
      rewrite H, orb_true_r in Hsi. exact Hsi.
    + destruct (Hok H0) as (_ & _ & Hlt & _).
      rewrite H, orb_true_r in Hlt. exact Hlt.
    + apply (Hfail H0).
    + destruct (Hfail H0) as (_ & Hsi & _). now rewrite Hsi.
    + destruct (occurs (is_establish_with false) t) eqn:Hf.
      * destruct (Hfail eq_refl) as (_ & Hsi & _). now rewrite Hsi.
      * destruct (Hok eq_refl) as (_ & _ & _ & Hsi). rewrite H in Hsi.
        rewrite Hsi. now destruct (TELEMETRY_INTERVAL_MS <=? _).
    + destruct (occurs (is_establish_with false) t) eqn:Hf.
      * destruct (Hfail eq_refl) as (Hr & _). rewrite Hr. now rewrite andb_false_r.
      * destruct (Hok eq_refl) as (Hr & _). rewrite Hr, H.
        now rewrite orb_false_r, andb_true_r.
Qed.

(** ** The session flag and the telemetry block *)

Lemma link_events_not_in (p : event -> bool) (w : list event) (e : event) :
  (forall e, link_event e = true -> p e = false) ->
  forallb link_event w = true -> p e = true -> ~ In e w.
Proof.
  intros Hp Hw He Hin.
  rewrite forallb_forall in Hw. specialize (Hp e (Hw e Hin)). congruence.
Qed.

(** C2.  In the telemetry block, [sendTelemetryJson] is called if and only
    if [mqttConnected] is set when the block runs, and then once, with the
    sample read in this very execution.  When the flag is clear the sample
    only goes to [temperatureCelsius]: no call to the session client is
    made, and [telemetryJson] and [jsonBuffer] are not touched.  What
    [temperatureCelsius] and [jsonBuffer] hold from before has no effect on
    the trace of [loop], so a sample that was not published is never
    published later. *)
Theorem publish_iff_connected
  (fuel : nat) (env : tick) (now : Z) (g : globals) :
  link_up_within fuel (wifi_status env) = true ->
  (exists g1 t1,
     telemetry_block env now g = Some (Normal tt g1 t1)
     /\ occurs is_publish t1 = mqttConnected g
     /\ count is_publish t1 = (if mqttConnected g then 1 else 0)%nat
     /\ (mqttConnected g = true ->
         In (SendTelemetryJson
               (serializeJson
                  (json_set "temperature_celsius" (pt100_temperature env)
                     (telemetryJson g)))) t1
         /\ (telemetryJson g = [] -> telemetryJson g1 = []))
     /\ (mqttConnected g = false ->
         t1 = [Store (Set_sendInitialTelemetry false);
               Pt100_temperature 100 430 (pt100_temperature env);
               Store (Set_temperatureCelsius (pt100_temperature env));
               Store (Set_lastTelemetryMillis now)]
         /\ telemetryJson g1 = telemetryJson g
         /\ jsonBuffer g1 = jsonBuffer g
         /\ temperatureCelsius g1 = pt100_temperature env))
  /\ (exists g' t,
       loop fuel env g = Some (Normal tt g' t)
       /\ occurs is_publish t = occurs is_sensor_read t && mqttConnected g'
       /\ (forall payload, In (SendTelemetryJson payload) t ->
             payload =
               serializeJson
                 (json_set "temperature_celsius" (pt100_temperature env)
                    (telemetryJson g)))
       /\ forall v b, exists g2,
            loop fuel env
              (apply_store (Set_temperatureCelsius v)
                 (apply_store (Set_jsonBuffer b) g))
            = Some (Normal tt g2 t)).
Proof using Type.
  clear float_zero ota_percent. intros Hlink. split.
  - destruct_globals g.
    unfold telemetry_block, bind, emit, read, write, ret.
    destruct mc; cbn; do 2 eexists; (split; [reflexivity|]).
    all: repeat split; try discriminate; try (intros; reflexivity).
    cbn. tauto.
  - assert (exists g' t,
       loop fuel env g = Some (Normal tt g' t)
       /\ occurs is_publish t = occurs is_sensor_read t && mqttConnected g'
       /\ (forall payload, In (SendTelemetryJson payload) t ->
             payload =
               serializeJson
                 (json_set "temperature_celsius" (pt100_temperature env)
                    (telemetryJson g)))) as (g' & t & E & Hp & Hpay).
    { destruct_globals g.
      loop_cases Hlink w Hw.
      all: destruct si, mc; cbn -[Z.leb ulong_sub].
      all: do 2 eexists; (split; [reflexivity|]).
      all: trace_simpl Hw; (split; [reflexivity|]).
      all: intros payload Hin.
      all: repeat (cbn [In] in Hin; rewrite ?in_app_iff in Hin).
      all: pose proof (link_events_not_in is_publish w
                         (SendTelemetryJson payload)
                         ltac:(no_link_event) Hw eq_refl) as Hnw.
      all: intuition (try discriminate; try congruence). }
    exists g', t. split; [exact E|]. split; [exact Hp|]. split; [exact Hpay|].
    intros v b. exact (loop_sample_irrelevant fuel env g g' t v b E).
Qed.

(** ** The OTA callbacks *)

(** C5.  With [success = true] the completion callback logs and calls
    [esp_restart], which does not return: whatever is sequenced after the
    callback does not run.  With [success = false] it logs "OTA update
    failed" and returns; it does not restart and leaves all globals as they
    are. *)
Theorem onOtaCompleted_outcomes
  (g : globals) (B : Type) (k : unit -> M B) :
  onOtaCompleted true g =
    Some (Restarted [Serial_println "OTA completed successfully, restarting...";
                   Esp_restart])
  /\ bind (onOtaCompleted true) k g =
       Some (Restarted
               [Serial_println "OTA completed successfully, restarting...";
                Esp_restart])
  /\ onOtaCompleted false g =
       Some (Normal tt g [Serial_println "OTA update failed"])
  /\ occurs is_restart [Serial_println "OTA update failed"] = false.
Proof. repeat split. Qed.

(** One call of the progress callback, with [counter] at [c < 10]. *)
Lemma onOtaProgress_step (chunk total : Z) (g : globals) (c : nat) :
  counter g = Z.of_nat c -> (c < 10)%nat ->
  exists g' t,
    onOtaProgress chunk total g = Some (Normal tt g' t)
    /\ g' = replay t g
    /\ g' = apply_store (Set_counter (Z.of_nat (S c mod 10))) g
    /\ t = (if (S c mod 10 =? 0)%nat
            then [Store (Set_counter 10);
                  SendAttributeData "OTA_Progress" (ota_percent chunk total);
                  Store (Set_counter 0)]
            else [Store (Set_counter (Z.of_nat (S c)))]).
Proof.
  intros Hc Hlt. destruct_globals g. subst cn.
  unfold onOtaProgress, bind, read, write, emit, ret.
  do 10 (destruct c as [|c];
         [cbn; do 2 eexists; repeat split; reflexivity|]).
  lia.
Qed.

Lemma progress_arith (c n : nat) :
  (c < 10)%nat ->
  ((c + S n) / 10 =
     (if (S c mod 10 =? 0) then 1 else 0) + (S c mod 10 + n) / 10
   /\ (c + S n) mod 10 = (S c mod 10 + n) mod 10
   /\ S c mod 10 < 10)%nat.
Proof.
  intros Hlt. destruct (Nat.eq_dec c 9) as [->|Hne].
  - replace (9 + S n)%nat with (n + 1 * 10)%nat by lia.
    rewrite Nat.div_add by lia. rewrite Nat.Div0.mod_add.
    change (S 9 mod 10)%nat with 0%nat. cbn [Nat.eqb Nat.add].
    repeat split; lia.
  - rewrite (Nat.mod_small (S c) 10) by lia.
    replace (c + S n)%nat with (S c + n)%nat by lia.
    repeat split; try lia.
Qed.

Lemma progress_run_from (calls : list (Z * Z)) :
  forall (g : globals) (c : nat),
  counter g = Z.of_nat c -> (c < 10)%nat ->
  exists g' t per,
    progress_run calls g = Some (Normal per g' t)
    /\ List.length per = List.length calls
    /\ count is_progress_attribute t = ((c + List.length calls) / 10)%nat
    /\ counter g' = Z.of_nat ((c + List.length calls) mod 10)
    /\ forall k chunk total,
        nth_error calls k = Some (chunk, total) ->
        exists tk,
          nth_error per k = Some (tk, Z.of_nat ((c + S k) mod 10))
          /\ tk = (if ((c + S k) mod 10 =? 0)%nat
                   then [Store (Set_counter 10);
                         SendAttributeData "OTA_Progress"
                           (ota_percent chunk total);
                         Store (Set_counter 0)]
                   else [Store (Set_counter (Z.of_nat ((c + S k) mod 10)))]).
Proof.
  induction calls as [|[chunk total] rest IH]; intros g c Hc Hlt.
  - exists g, [], []. cbn [progress_run List.length].
    rewrite Nat.add_0_r, Nat.div_small, Nat.mod_small by lia.
    repeat split; try assumption. intros [|k] ? ? H; discriminate.
  - destruct (onOtaProgress_step chunk total g c Hc Hlt)
      as (g1 & t1 & E1 & _ & Hg1 & Ht1).
    destruct (progress_arith c (List.length rest) Hlt) as (Hdiv & Hmod & Hlt1).
    assert (Hc1 : counter g1 = Z.of_nat (S c mod 10))
      by (rewrite Hg1; now destruct g).
    destruct (IH g1 (S c mod 10)%nat Hc1 Hlt1)
      as (g' & t & per & E & Hlen & Hcnt & Hfin & Hk).
    cbn [progress_run]. unfold bind, traced, read, ret. rewrite E1, E.
    do 3 eexists. split; [reflexivity|].
    cbn [List.length]. split; [now rewrite Hlen|].
    split.
    { rewrite app_nil_r. cbn [app]. unfold count in *.
      rewrite filter_app, length_app, Hcnt, Hdiv, Ht1.
      destruct (S c mod 10 =? 0)%nat;
        cbn [filter is_progress_attribute List.length]; lia. }
    split; [now rewrite Hfin, Hmod|].
    intros [|k] chunk' total' Hnth.
    + cbn in Hnth. inversion Hnth; subst chunk' total'.
      exists t1. cbn [nth_error]. rewrite Hc1.
      replace (c + 1)%nat with (S c) by lia. split; [reflexivity|].
      rewrite Ht1. destruct (S c mod 10 =? 0)%nat eqn:Hz; [reflexivity|].
      rewrite Nat.mod_small; [reflexivity|].
      destruct (Nat.eq_dec c 9) as [->|]; [discriminate|lia].
    + cbn [nth_error] in *. destruct (Hk k chunk' total' Hnth) as (tk & Hn & Htk).
      destruct (progress_arith c (S k) Hlt) as (_ & Hmod' & _).
      exists tk. rewrite Hmod'. split; assumption.
Qed.

(** C4.  Starting from [counter = 0], in a sequence of calls of the progress
    callback the attribute "OTA_Progress" is sent by the 10th, 20th, 30th,
    ... call and by no other: [length calls / 10] times in all.  A call
    that sends the attribute sets [counter] back to 0. *)
Theorem progress_every_tenth (calls : list (Z * Z)) (g : globals) :
  counter g = 0 ->
  exists g' t per,
    progress_run calls g = Some (Normal per g' t)
    /\ List.length per = List.length calls
    /\ count is_progress_attribute t = (List.length calls / 10)%nat
    /\ counter g' = Z.of_nat (List.length calls mod 10)
    /\ forall k chunk total,
        nth_error calls k = Some (chunk, total) ->
        exists tk ck,
          nth_error per k = Some (tk, ck)
          /\ occurs is_progress_attribute tk = (S k mod 10 =? 0)%nat
          /\ count is_progress_attribute tk =
               (if (S k mod 10 =? 0)%nat then 1 else 0)%nat
          /\ ck = Z.of_nat (S k mod 10)
          /\ ((S k mod 10 =? 0)%nat = true ->
              tk = [Store (Set_counter 10);
                    SendAttributeData "OTA_Progress" (ota_percent chunk total);
                    Store (Set_counter 0)]
              /\ ck = 0).
Proof.
  intros Hc.
  destruct (progress_run_from calls g 0 Hc ltac:(lia))
    as (g' & t & per & E & Hlen & Hcnt & Hfin & Hk).
  exists g', t, per. cbn [Nat.add] in *. repeat split; try assumption.
  intros k chunk total Hnth.
  destruct (Hk k chunk total Hnth) as (tk & Hn & Htk).
  exists tk, (Z.of_nat (S k mod 10)). split; [exact Hn|].
  rewrite Htk. destruct (S k mod 10 =? 0)%nat eqn:Hz.
  - apply Nat.eqb_eq in Hz. rewrite Hz. repeat split.
  - repeat split; discriminate.
Qed.

(** ** Who writes the session flag *)

(** C9.  [mqttConnected] starts as [false].  [setup], the telemetry block
    and the two callbacks never assign it.  In [loop] it is assigned exactly
    when the connectivity check is due and the session client reports the
    session down, that is inside the connectivity block; otherwise it keeps
    its value.  (The globals after a run are those before it with the
    assignments of the trace applied, so the trace shows every write.) *)
Theorem mqttConnected_written_by_supervisor_only
  (fuel : nat) (prefs : preferences) (status : nat -> bool)
  (env : tick) (now chunk total : Z) (success : bool) (g : globals) :
  existsb status (seq 0 fuel) = true ->
  link_up_within fuel (wifi_status env) = true ->
  mqttConnected globals_init = false
  /\ (exists g' t,
        setup fuel prefs status g = Some (Normal tt g' t)
        /\ g' = replay t g
        /\ occurs writes_mqttConnected t = false
        /\ mqttConnected g' = mqttConnected g)
  /\ (exists g' t,
        telemetry_block env now g = Some (Normal tt g' t)
        /\ g' = replay t g
        /\ occurs writes_mqttConnected t = false
        /\ mqttConnected g' = mqttConnected g)
  /\ (exists g' t,
        onOtaProgress chunk total g = Some (Normal tt g' t)
        /\ g' = replay t g
        /\ occurs writes_mqttConnected t = false
        /\ mqttConnected g' = mqttConnected g)
  /\ (exists t,
        occurs writes_mqttConnected t = false
        /\ onOtaCompleted success g =
             Some (if success then Restarted t else Normal tt g t))
  /\ (exists g' t,
        loop fuel env g = Some (Normal tt g' t)
        /\ g' = replay t g
        /\ occurs writes_mqttConnected t =
             connection_check_due (millis env) g && negb (tb_connected env)
        /\ (occurs writes_mqttConnected t = false ->
            mqttConnected g' = mqttConnected g)).
Proof.
  intros Hboot Hlink. split; [reflexivity|]. split.
  { destruct (setup_returns fuel prefs status g Hboot)
      as (g' & t & E & Hr & Hw & Hm & _).
    exists g', t. repeat split; assumption. }
  split.
  { destruct_globals g.
    unfold telemetry_block, bind, emit, read, write, ret.
    destruct mc; cbn; do 2 eexists; repeat split; reflexivity. }
  split.
  { destruct_globals g.
    unfold onOtaProgress, bind, emit, read, write, ret. cbn -[Z.leb].
    destruct (10 <=? cn + 1); cbn; do 2 eexists; repeat split; reflexivity. }
  split.
  { destruct success; eexists; split; try reflexivity; reflexivity. }
  destruct_globals g.
  loop_cases Hlink w Hw.
  all: destruct si, mc; cbn -[Z.leb ulong_sub].
  all: do 2 eexists; (split; [reflexivity|]).
  all: trace_simpl Hw; repeat split; intros; try discriminate; reflexivity.
Qed.

(** * Further properties of the sketch *)

(** ** The timers across the rollover of [millis] *)

Lemma ulong_sub_elapsed (last d : Z) :
  0 <= last < 2 ^ 32 -> 0 <= d < 2 ^ 32 ->
  ulong_sub ((last + d) mod 2 ^ 32) last = d.
Proof.
  intros Hl Hd. unfold ulong_sub, ULONG_BITS.
  rewrite Zminus_mod_idemp_l.
  replace (last + d - last) with d by lia.
  apply Z.mod_small. lia.
Qed.

(** X1.  The two timers measure the time that has really passed, also when
    [millis] has wrapped around since the mark was set: with the mark at
    [last] and [now] the 32-bit clock [d] milliseconds later, the
    connectivity check is due iff [d >= 1000] and the telemetry block iff
    [d >= 900000] or the immediate-send flag is set. *)
Theorem timers_measure_elapsed_time (g : globals) (d : Z) :
  0 <= lastConnectionCheckMillis g < 2 ^ 32 ->
  0 <= lastTelemetryMillis g < 2 ^ 32 ->
  0 <= d < 2 ^ 32 ->
  connection_check_due ((lastConnectionCheckMillis g + d) mod 2 ^ 32) g
    = (1000 <=? d)
  /\ telemetry_due ((lastTelemetryMillis g + d) mod 2 ^ 32) g
     = (900000 <=? d) || sendInitialTelemetry g.
Proof.
  intros Hc Ht Hd. unfold connection_check_due, telemetry_due.
  rewrite !ulong_sub_elapsed by assumption. split; reflexivity.
Qed.

(** ** Blocking on the link *)

Lemma wifi_wait_blocked (status : nat -> bool) :
  forall fuel k g, existsb status (seq k fuel) = false ->
  wifi_wait fuel status k g = None.
Proof.
  induction fuel as [|fuel IH]; intros k g H; [reflexivity|].
  cbn [wifi_wait]. unfold bind, emit, ret. cbn [seq existsb] in H.
  destruct (status k); [discriminate|]. cbn in H.
  now rewrite (IH (S k) g H).
Qed.

(** The trace of the wait when the link is down at [n] polls and up at the
    next one. *)
Lemma wifi_wait_trace (status : nat -> bool) :
  forall n fuel k g,
  forallb (fun j => negb (status j)) (seq k n) = true ->
  status (k + n)%nat = true ->
  (n < fuel)%nat ->
  wifi_wait fuel status k g =
    Some (Normal tt g (List.concat (repeat wifi_retry n) ++ [WiFi_status true])).
Proof.
  induction n as [|n IH]; intros fuel k g Hdown Hup Hfuel.
  - destruct fuel as [|fuel]; [lia|].
    cbn [wifi_wait]. unfold bind, emit, ret.
    rewrite Nat.add_0_r in Hup. now rewrite Hup.
  - destruct fuel as [|fuel]; [lia|].
    cbn [seq forallb] in Hdown. apply andb_prop in Hdown as [Hk Hdown].
    apply negb_true_iff in Hk.
    cbn [wifi_wait]. unfold bind, emit, ret. rewrite Hk.
    rewrite (IH fuel (S k) g Hdown) by (try lia; now rewrite <- Hup; f_equal; lia).
    reflexivity.
Qed.

(** X2.  [connectWiFi] with the link down at [n] polls and up at the next
    one: it calls [WiFi.begin] once, with the stored credentials, waits
    500 ms and prints a dot after each poll that finds the link down, and
    returns after the first poll that finds it up; the globals are as
    before. *)
Theorem connectWiFi_waits_for_link
  (fuel n k : nat) (status : nat -> bool) (g : globals) :
  forallb (fun j => negb (status j)) (seq k n) = true ->
  status (k + n)%nat = true ->
  (n < fuel)%nat ->
  connectWiFi fuel status k g =
    Some (Normal tt g
            ([Serial_println "Connecting to WiFi...";
              WiFi_begin (wifiSSID g) (wifiPassword g) (wifiChannel g)
                (routerMAC g)]
             ++ List.concat (repeat wifi_retry n)
             ++ [WiFi_status true;
                 Serial_println (String "010"%char "WiFi connected")])).
Proof.
  intros Hdown Hup Hfuel. unfold connectWiFi, bind, emit, read.
  rewrite (wifi_wait_trace status n fuel k g Hdown Hup Hfuel).
  cbn [app]. rewrite <- !app_assoc. reflexivity.
Qed.

Lemma retries_without_begin (m : nat) :
  filter is_wifi_begin (List.concat (repeat wifi_retry m)) = [].
Proof. induction m as [|m IH]; [reflexivity|exact IH]. Qed.

(** X3.  [ensureWiFiConnection] with the link down at the first [n] polls
    and up at the next one.  With [n = 0] it only polls the link once:
    [WiFi.begin] is not called.  Otherwise it reconnects: one [WiFi.begin],
    [n - 1] waits of 500 ms.  It returns [true] and leaves the globals as
    they are. *)
Theorem ensureWiFiConnection_trace
  (fuel n : nat) (status : nat -> bool) (g : globals) :
  forallb (fun j => negb (status j)) (seq 0 n) = true ->
  status n = true ->
  (n <= fuel)%nat ->
  exists w,
    ensureWiFiConnection fuel status g = Some (Normal true g w)
    /\ w = match n with
           | O => [WiFi_status true]
           | S m =>
               [WiFi_status false;
                Serial_println "Connecting to WiFi...";
                WiFi_begin (wifiSSID g) (wifiPassword g) (wifiChannel g)
                  (routerMAC g)]
               ++ List.concat (repeat wifi_retry m)
               ++ [WiFi_status true;
                   Serial_println (String "010"%char "WiFi connected")]
           end
    /\ count is_wifi_begin w = (if status 0%nat then 0 else 1)%nat.
Proof.
  intros Hdown Hup Hfuel.
  unfold ensureWiFiConnection, connectWiFi, bind, emit, read, ret.
  destruct n as [|m].
  - rewrite Hup. eexists. repeat split.
  - cbn [seq forallb] in Hdown. apply andb_prop in Hdown as [H0 Hdown].
    apply negb_true_iff in H0. rewrite H0.
    rewrite (wifi_wait_trace status m fuel 1 g Hdown Hup) by lia.
    eexists. split; [reflexivity|]. cbn [app]. rewrite <- !app_assoc.
    split; [reflexivity|].
    unfold count. cbn [app filter is_wifi_begin List.length].
    rewrite filter_app.
    rewrite (retries_without_begin m). reflexivity.
Qed.

Lemma ensureWiFiConnection_blocked (fuel : nat) (status : nat -> bool) g :
  link_up_within fuel status = false ->
  ensureWiFiConnection fuel status g = None.
Proof.
  unfold link_up_within. cbn [seq existsb]. intros H.
  apply orb_false_iff in H as [H0 H].
  unfold ensureWiFiConnection, connectWiFi, bind, emit, read, ret.
  now rewrite H0, (wifi_wait_blocked status fuel 1 g H).
Qed.

(** When the connectivity check is not due, [loop] does not look at the
    link, the session client or [fuel]. *)
Lemma loop_check_not_due (fuel : nat) (env : tick) (g : globals) :
  connection_check_due (millis env) g = false ->
  loop fuel env g =
    (emit (Millis (millis env)) ;;
     due' <- read (telemetry_due (millis env)) ;;
     (if due' then telemetry_block env (millis env) else ret tt) ;;
     emit Tb_loop) g.
Proof.
  intros Hdue. unfold loop, bind, emit, read, ret. rewrite Hdue.
  destruct (telemetry_due (millis env) g);
    [destruct (telemetry_block env (millis env) g) as [[]|]|]; reflexivity.
Qed.

Lemma telemetry_block_returns (env : tick) (now : Z) (g : globals) :
  exists g' t, telemetry_block env now g = Some (Normal tt g' t).
Proof.
  destruct_globals g. unfold telemetry_block, bind, emit, read, write, ret.
  destruct mc; cbn; do 2 eexists; reflexivity.
Qed.


Lemma last_cons2 (e e' d : event) (l : list event) :
  last (e :: e' :: l) d = last (e' :: l) d.
Proof. reflexivity. Qed.

Lemma last_skip (e a d : event) (l : list event) :
  last (e :: l ++ [a]) d = last (l ++ [a]) d.
Proof. destruct l; reflexivity. Qed.

(** X5.  [setup] returns if and only if the link comes up: as long as
    [WiFi.status()] does not report the connection, [setup] stays in
    [connectWiFi], the sensor is not initialised and [loop] is not
    reached.  When it returns, initialising the sensor is the last thing it
    did, and it has not read the sensor. *)
Theorem setup_blocks_iff_link_down
  (fuel : nat) (prefs : preferences) (status : nat -> bool) (g : globals) :
  match setup fuel prefs status g with
  | None => existsb status (seq 0 fuel) = false
  | Some (Normal _ g' t) =>
      existsb status (seq 0 fuel) = true
      /\ last t Tb_loop = Pt100_begin
      /\ count is_sensor_read t = 0%nat
  | Some (Restarted _) => False
  end.
Proof.
  destruct (existsb status (seq 0 fuel)) eqn:H.
  - destruct prefs as [p1 p2 p3 p4 p5].
    unfold setup, bind, emit, write, ret. cbn [pref_mac].
    destruct p3 as [bytes|]; cbn -[connectWiFi].
    all: match goal with
         | |- context [connectWiFi ?f ?s ?k ?g0] =>
             destruct (connectWiFi_total f s k g0 H) as (w & E & Hw); rewrite E
         end.
    all: split; [reflexivity|].
    all: split; [|trace_simpl Hw; reflexivity].
    all: rewrite ?app_nil_r, !last_cons2, last_skip, last_last; reflexivity.
  - destruct prefs as [p1 p2 p3 p4 p5].
    unfold setup, connectWiFi, bind, emit, read, write, ret. cbn [pref_mac].
    destruct p3 as [bytes|]; cbn -[wifi_wait];
      now rewrite (wifi_wait_blocked status fuel 0 _ H).
Qed.

(** ** [setup] and the first call of [loop] *)

Lemma wifi_wait_events (fuel : nat) (status : nat -> bool) :
  forall k g o, wifi_wait fuel status k g = Some o ->
  exists w, o = Normal tt g w /\ forallb wait_event w = true.
Proof.
  induction fuel as [|fuel IH]; intros k g o H; [discriminate|].
  cbn [wifi_wait] in H. unfold bind, emit, ret in H.
  destruct (status k).
  - inversion H; subst. now eexists.
  - destruct (wifi_wait fuel status (S k) g) as [o'|] eqn:E; [|discriminate].
    destruct (IH _ _ _ E) as [w [-> Hw]].
    inversion H; subst. eexists; split; [reflexivity|]. exact Hw.
Qed.

Lemma wait_events_no_begin (w : list event) :
  forallb wait_event w = true -> filter is_wifi_begin w = [].
Proof.
  induction w as [|e w IH]; [reflexivity|].
  cbn [forallb filter]. intros H. apply andb_prop in H as [He Hw].
  destruct e; try discriminate; exact (IH Hw).
Qed.

Lemma wait_events_link (w : list event) :
  forallb wait_event w = true -> forallb link_event w = true.
Proof.
  induction w as [|e w IH]; [reflexivity|].
  cbn [forallb]. intros H. apply andb_prop in H as [He Hw].
  rewrite (IH Hw). destruct e; try discriminate; reflexivity.
Qed.

(** [connectWiFi] calls [WiFi.begin] once, first thing after its log line,
    with the credentials the globals hold at that time. *)
Lemma connectWiFi_begin (fuel : nat) (status : nat -> bool) (k : nat) g :
  existsb status (seq k fuel) = true ->
  exists w,
    connectWiFi fuel status k g =
      Some (Normal tt g
              (Serial_println "Connecting to WiFi..."
               :: WiFi_begin (wifiSSID g) (wifiPassword g) (wifiChannel g)
                    (routerMAC g)
               :: w))
    /\ filter is_wifi_begin w = []
    /\ forallb link_event w = true.
Proof.
  intros H. unfold connectWiFi, bind, emit, read.
  destruct (wifi_wait_returns status fuel k g H) as [w E].
  destruct (wifi_wait_events _ _ _ _ _ E) as [w' [Eq Hw]].
  inversion Eq; subst w'. rewrite E.
  eexists. split; [reflexivity|]. cbn [app]. split.
  - rewrite filter_app, (wait_events_no_begin w Hw). reflexivity.
  - rewrite forallb_app, (wait_events_link w Hw). reflexivity.
Qed.

(** What [setup] leaves in the globals, and its one [WiFi.begin]. *)
Lemma setup_outcome
  (fuel : nat) (prefs : preferences) (status : nat -> bool) (g : globals) :
  existsb status (seq 0 fuel) = true ->
  exists g' t,
    setup fuel prefs status g = Some (Normal tt g' t)
    /\ g' = mkGlobals (Some "PT100_Cold_Storage")
              (getString (pref_ssid prefs) "")
              (getString (pref_password prefs) "")
              (match pref_mac prefs with
               | Some bytes => bytes
               | None => routerMAC g
               end)
              (getInt (pref_channel prefs) 0)
              (getString (pref_mqtt_token prefs) "")
              (lastTelemetryMillis g) (lastConnectionCheckMillis g)
              (sendInitialTelemetry g) (temperatureCelsius g)
              (mqttConnected g) (telemetryJson g) (jsonBuffer g) (counter g)
    /\ filter is_wifi_begin t =
         [WiFi_begin (wifiSSID g') (wifiPassword g') (wifiChannel g')
            (routerMAC g')].
Proof.
  intros H. destruct_globals g. destruct prefs as [p1 p2 p3 p4 p5].
  unfold setup, bind, emit, write, ret. cbn [pref_mac pref_ssid pref_password
    pref_channel pref_mqtt_token].
  destruct p3 as [bytes|]; cbn -[connectWiFi].
  all: match goal with
       | |- context [connectWiFi ?f ?s ?k ?g0] =>
           destruct (connectWiFi_begin f s k g0 H) as (w & E & Hb & Hw);
           rewrite E
       end.
  all: do 2 eexists; (split; [reflexivity|]); (split; [reflexivity|]).
  all: cbn. all: rewrite filter_app, Hb; reflexivity.
Qed.

(** X6.  The boot sequence of [setup]: it opens the namespace
    "credentials" read-only, reads the five credentials, closes the store,
    sets the firmware title and only then connects: [WiFi.begin] is called
    once, with the values just read, and the sensor is initialised last.  A
    key that is absent gives the empty string, channel 0 and, for the MAC,
    the bytes [routerMAC] had before.  The timers, the two flags and the
    throttle counter are as before. *)
Theorem setup_loads_then_connects
  (fuel : nat) (prefs : preferences) (status : nat -> bool) (g : globals) :
  existsb status (seq 0 fuel) = true ->
  exists g' t w,
    setup fuel prefs status g = Some (Normal tt g' t)
    /\ g' = mkGlobals (Some "PT100_Cold_Storage")
              (getString (pref_ssid prefs) "")
              (getString (pref_password prefs) "")
              (match pref_mac prefs with
               | Some bytes => bytes
               | None => routerMAC g
               end)
              (getInt (pref_channel prefs) 0)
              (getString (pref_mqtt_token prefs) "")
              (lastTelemetryMillis g) (lastConnectionCheckMillis g)
              (sendInitialTelemetry g) (temperatureCelsius g)
              (mqttConnected g) (telemetryJson g) (jsonBuffer g) (counter g)
    /\ t = [Serial_begin 115200; Delay 1000;
            Preferences_begin "credentials" true;
            Store (Set_wifiSSID (wifiSSID g'));
            Store (Set_wifiPassword (wifiPassword g'))]
           ++ match pref_mac prefs with
              | Some bytes => [Store (Set_routerMAC bytes)]
              | None => []
              end
           ++ [Store (Set_wifiChannel (wifiChannel g'));
               Store (Set_mqttToken (mqttToken g'));
               Preferences_end;
               Store (Set_firmwareTitle "PT100_Cold_Storage");
               Serial_println "Connecting to WiFi...";
               WiFi_begin (wifiSSID g') (wifiPassword g') (wifiChannel g')
                 (routerMAC g')]
           ++ w ++ [Pt100_begin]
    /\ filter is_wifi_begin w = []
    /\ forallb link_event w = true.
Proof.
  intros H. destruct_globals g. destruct prefs as [p1 p2 p3 p4 p5].
  unfold setup, bind, emit, write, ret. cbn [pref_mac pref_ssid pref_password
    pref_channel pref_mqtt_token].
  destruct p3 as [bytes|]; cbn -[connectWiFi].
  all: match goal with
       | |- context [connectWiFi ?f ?s ?k ?g0] =>
           destruct (connectWiFi_begin f s k g0 H) as (w & E & Hb & Hw);
           rewrite E
       end.
  all: eexists; eexists; exists w.
  all: split; [reflexivity|]; split; [reflexivity|].
  all: split; [|split; assumption].
  all: cbn; rewrite ?app_nil_r; reflexivity.
Qed.

(** X7.  The first call of [loop] after [setup], when the session can be
    established: the session-establish call carries the token read from the
    store (the empty string if there is none), the firmware title sent and
    subscribed with is "PT100_Cold_Storage", and a sample is read and
    published in this same call, before the poll. *)
Theorem first_loop_after_setup
  (fuel : nat) (prefs : preferences) (status : nat -> bool) (env : tick) :
  existsb status (seq 0 fuel) = true ->
  link_up_within fuel (wifi_status env) = true ->
  1000 <= millis env < 2 ^ 32 ->
  tb_connected env = false ->
  tb_connect env = true ->
  exists g0 t0 g' w,
    setup fuel prefs status globals_init = Some (Normal tt g0 t0)
    /\ forallb link_event w = true
    /\ loop fuel env g0 =
       Some (Normal tt g'
         (Millis (millis env) :: w ++
          let sample := pt100_temperature env in
          let payload := serializeJson [("temperature_celsius", sample)] in
          [Tb_connected false;
           Store (Set_mqttConnected false);
           Tb_connect "mqtt.thingsboard.cloud"
             (getString (pref_mqtt_token prefs) "") 1883 true;
           Store (Set_mqttConnected true);
           Firmware_Send_Info (Some "PT100_Cold_Storage") "1.3.0";
           Firmware_Send_State "UPDATED";
           Subscribe_Firmware_Update
             (mkOta Fn_onOtaProgress Fn_onOtaCompleted
                (Some "PT100_Cold_Storage") "1.3.0" 24 4096);
           Store (Set_lastConnectionCheckMillis (millis env));
           Store (Set_sendInitialTelemetry false);
           Pt100_temperature 100 430 sample;
           Store (Set_temperatureCelsius sample);
           Store (Set_telemetryJson "temperature_celsius" sample);
           Store (Set_jsonBuffer payload);
           SendTelemetryJson payload;
           Store Clear_telemetryJson;
           Store (Set_lastTelemetryMillis (millis env));
           Tb_loop])).
Proof.
  intros Hboot Hlink Hnow Hc He.
  destruct (setup_outcome fuel prefs status globals_init Hboot)
    as (g0 & t0 & E0 & Hg0 & _).
  exists g0, t0. rewrite E0. subst g0. clear E0.
  assert (Hdue : (CONNECTION_CHECK_MS <=? ulong_sub (millis env) 0) = true).
  { unfold ulong_sub, ULONG_BITS, CONNECTION_CHECK_MS.
    rewrite Z.sub_0_r, Z.mod_small by lia. apply Z.leb_le. lia. }
  cbn [globals_init lastTelemetryMillis lastConnectionCheckMillis
       sendInitialTelemetry temperatureCelsius mqttConnected telemetryJson
       jsonBuffer counter routerMAC].
  unfold loop, bind, emit, read, connection_check_due.
  cbn [millis lastConnectionCheckMillis]. rewrite Hdue.
  unfold connectivity_block, bind.
  match goal with
  | |- context [ensureWiFiConnection ?f ?s ?g] =>
      destruct (ensureWiFiConnection_total f s g Hlink) as (w & E & Hw);
      rewrite E; clear E
  end.
  unfold session_block, telemetry_due, telemetry_block,
    bind, emit, read, write, ret.
  rewrite Hc, He. cbn -[Z.leb ulong_sub].
  rewrite orb_true_r. cbn -[Z.leb ulong_sub].
  do 2 eexists. split; [reflexivity|]. split; [exact Hw|].
  rewrite <- !app_assoc. reflexivity.
Qed.

(** ** What every call of [loop] keeps *)

(** Splits [H : loop fuel env g = Some o], with [g] a record, into the
    paths of [loop]; [w] is the trace of the link part. *)
Ltac loop_paths H w Hw :=
  unfold loop, bind, emit, read, connection_check_due in H;
  cbn [millis lastConnectionCheckMillis] in H;
  match type of H with
  | context [CONNECTION_CHECK_MS <=? ulong_sub ?n ?l] =>
      destruct (CONNECTION_CHECK_MS <=? ulong_sub n l) eqn:?Hdue
  end;
  [ unfold connectivity_block, bind in H;
    match type of H with
    | context [ensureWiFiConnection ?f ?s ?g] =>
        let E := fresh "E" in
        destruct (ensureWiFiConnection f s g) as [?o|] eqn:E;
        [|discriminate];
        destruct (ensureWiFiConnection_inv _ _ _ _ E) as [w [-> Hw]]; clear E
    end
  | pose (w := @nil event);
    pose proof (eq_refl : forallb link_event w = true) as Hw ];
  unfold session_block, telemetry_due, telemetry_block,
    bind, emit, read, write, ret in H;
  match type of H with
  | context [tb_connected ?e] =>
      destruct (tb_connected e) eqn:?Hsession;
      destruct (tb_connect e) eqn:?Hestablish
  | _ => idtac
  end;
  cbn -[Z.leb ulong_sub] in H;
  match type of H with
  | context [TELEMETRY_INTERVAL_MS <=? ulong_sub ?n ?l] =>
      destruct (TELEMETRY_INTERVAL_MS <=? ulong_sub n l) eqn:?Htimer
  | _ => idtac
  end;
  cbn -[Z.leb ulong_sub] in H.

(** What one call of [loop] that returns has done. *)
Lemma loop_step (fuel : nat) (env : tick) (g : globals) (o : outcome unit) :
  loop fuel env g = Some o ->
  exists g' t,
    o = Normal tt g' t
    /\ same_configuration g g'
    /\ (telemetryJson g = [] ->
        telemetryJson g' = []
        /\ (occurs is_publish t = true ->
            filter is_publish t =
              [SendTelemetryJson
                 (serializeJson
                    [("temperature_celsius", pt100_temperature env)])]
            /\ jsonBuffer g' =
                 serializeJson
                   [("temperature_celsius", pt100_temperature env)]))
    /\ (occurs is_publish t = false -> jsonBuffer g' = jsonBuffer g)
    /\ count is_subscribe t = count (is_establish_with true) t
    /\ count is_firmware_send t = (2 * count is_subscribe t)%nat
    /\ (occurs is_sensor_read t = true ->
        lastTelemetryMillis g' = millis env
        /\ sendInitialTelemetry g' = false
        /\ (sendInitialTelemetry g = false ->
            (TELEMETRY_INTERVAL_MS <=?
               ulong_sub (millis env) (lastTelemetryMillis g)) = true))
    /\ (occurs is_sensor_read t = false ->
        lastTelemetryMillis g' = lastTelemetryMillis g
        /\ sendInitialTelemetry g' = sendInitialTelemetry g).
Proof.
  intros H. destruct_globals g. unfold same_configuration.
  loop_paths H w Hw.
  all: destruct si, mc; cbn -[Z.leb ulong_sub] in H.
  all: inversion H; subst o; clear H.
  all: do 2 eexists; (split; [reflexivity|]).
  all: cbn [firmwareTitle wifiSSID wifiPassword routerMAC wifiChannel
            mqttToken counter telemetryJson jsonBuffer lastTelemetryMillis
            sendInitialTelemetry pt100_temperature].
  all: trace_simpl Hw.
  all: repeat split; intros; subst; try discriminate; try reflexivity;
         try assumption.
Qed.


(** X9.  The JSON document is empty between calls of [loop]: if it is
    empty before a call it is empty after it.  So a payload that is
    published holds the one key "temperature_celsius" with the sample of
    this call; there is at most one publish per call, and [jsonBuffer] keeps
    the payload last published. *)
Theorem telemetry_document_invariant
  (fuel : nat) (env : tick) (g g' : globals) (t : list event) :
  telemetryJson g = [] ->
  loop fuel env g = Some (Normal tt g' t) ->
  telemetryJson g' = []
  /\ (count is_publish t <= 1)%nat
  /\ (forall payload, In (SendTelemetryJson payload) t ->
        payload =
          serializeJson [("temperature_celsius", pt100_temperature env)]
        /\ jsonBuffer g' = payload)
  /\ (occurs is_publish t = false -> jsonBuffer g' = jsonBuffer g).
Proof.
  intros Hdoc E.
  destruct (loop_step fuel env g _ E) as (g1 & t1 & Eq & _ & Hj & Hb & _).
  inversion Eq; subst g1 t1. destruct (Hj Hdoc) as (Hempty & Hpub).
  split; [exact Hempty|].
  assert (Hin : forall payload, In (SendTelemetryJson payload) t ->
                  occurs is_publish t = true).
  { intros payload Hp. apply existsb_exists. now exists (SendTelemetryJson payload). }
  split; [|split; [|exact Hb]].
  - unfold count. destruct (occurs is_publish t) eqn:Ho.
    + destruct (Hpub eq_refl) as (-> & _). cbn. lia.
    + unfold occurs in Ho.
      assert (filter is_publish t = []) as ->; [|cbn; lia].
      clear -Ho. induction t as [|e t IH]; [reflexivity|].
      cbn [existsb filter] in *. destruct (is_publish e); [discriminate|].
      now apply IH.
  - intros payload Hp. destruct (Hpub (Hin payload Hp)) as (Hf & Hbuf).
    assert (Hm : In (SendTelemetryJson payload) (filter is_publish t))
      by (apply filter_In; now split).
    rewrite Hf in Hm. destruct Hm as [Hm|[]]. inversion Hm; subst payload.
    split; [reflexivity|exact Hbuf].
Qed.

(** X10.  The telemetry block trusts the flag, not the session: when the
    connectivity check is not due, [loop] does not ask the session client
    or the link, and what it does depends on the clock and the sample only.
    With the flag set and the telemetry block due it publishes, also when
    the session has dropped since the last check. *)
Theorem publish_trusts_flag
  (fuel fuel2 : nat) (env env2 : tick) (g : globals) :
  connection_check_due (millis env) g = false ->
  millis env2 = millis env ->
  pt100_temperature env2 = pt100_temperature env ->
  loop fuel2 env2 g = loop fuel env g
  /\ exists g' t,
       loop fuel env g = Some (Normal tt g' t)
       /\ occurs is_session_query t = false
       /\ occurs is_establish t = false
       /\ occurs link_event t = false
       /\ occurs is_publish t = telemetry_due (millis env) g && mqttConnected g
       /\ mqttConnected g' = mqttConnected g.
Proof.
  intros Hdue Hm Hs. split.
  - rewrite (loop_check_not_due fuel env g Hdue).
    rewrite <- Hm in Hdue. rewrite (loop_check_not_due fuel2 env2 g Hdue).
    rewrite Hm. unfold telemetry_block. rewrite Hs. reflexivity.
  - rewrite (loop_check_not_due fuel env g Hdue).
    destruct_globals g.
    unfold telemetry_due, telemetry_block, bind, emit, read, write, ret.
    cbn -[Z.leb ulong_sub].
    destruct (TELEMETRY_INTERVAL_MS <=? ulong_sub (millis env) lt);
      destruct si, mc; cbn -[Z.leb ulong_sub];
      do 2 eexists; repeat split; reflexivity.
Qed.

(** ** Runs of [loop] *)

Lemma run_loop_cons (fuel : nat) (env : tick) (rest : list tick) :
  forall g o,
  run_loop fuel (env :: rest) g = Some o ->
  exists g1 t1 calls g' t2,
    loop fuel env g = Some (Normal tt g1 t1)
    /\ run_loop fuel rest g1 = Some (Normal calls g' t2)
    /\ o = Normal ((millis env, t1) :: calls) g' (t1 ++ t2).
Proof.
  revert env. induction rest as [|env2 rest IH]; intros env g o H.
  - cbn [run_loop] in H. unfold bind, traced, ret in H.
    destruct (loop fuel env g) as [o1|] eqn:E; [|discriminate].
    destruct (loop_step fuel env g o1 E) as (g1 & t1 & -> & _).
    inversion H; subst o. exists g1, t1, [], g1, [].
    repeat split.
  - change (run_loop fuel (env :: env2 :: rest))
      with (t <- traced (loop fuel env) ;;
            r <- run_loop fuel (env2 :: rest) ;;
            ret ((millis env, t) :: r)) in H.
    unfold bind at 1 in H. unfold traced in H.
    destruct (loop fuel env g) as [o1|] eqn:E; [|discriminate].
    destruct (loop_step fuel env g o1 E) as (g1 & t1 & -> & _).
    unfold bind, ret in H.
    destruct (run_loop fuel (env2 :: rest) g1) as [o2|] eqn:E2; [|discriminate].
    destruct (IH env2 g1 o2 E2) as (ga & ta & calls & g' & tb & _ & _ & ->).
    inversion H; subst o. do 5 eexists. split; [reflexivity|].
    split; [exact E2|]. now rewrite app_nil_r.
Qed.

Lemma loop_establish_fails (fuel : nat) (env : tick) (g : globals) :
  link_up_within fuel (wifi_status env) = true ->
  connection_check_due (millis env) g = true ->
  tb_connected env = false ->
  tb_connect env = false ->
  exists w,
    forallb link_event w = true
    /\ loop fuel env g =
       Some (Normal tt (apply_store (Set_mqttConnected false) g)
               (Millis (millis env) :: w ++
                [Tb_connected false;
                 Store (Set_mqttConnected false);
                 Tb_connect MQTT_SERVER (mqttToken g) MQTT_PORT false;
                 Serial_println "MQTT connection failed"])).
Proof.
  intros Hlink Hdue Hc He. destruct_globals g.
  loop_cases Hlink w Hw; try congruence.
  all: exists w; split; [exact Hw|].
  all: rewrite ?app_nil_r, <- ?app_assoc; reflexivity.
Qed.

(** X11.  While the session cannot be established, every call of [loop]
    tries again: the failed call does not set the connectivity mark, so the
    check stays due.  In such a run each call makes one session-establish
    call and nothing else: no poll of the session client, no sensor read;
    the telemetry mark and the immediate-send flag wait, and the session
    flag is clear. *)
Theorem failed_establish_retried_every_call
  (fuel : nat) (envs : list tick) (g : globals) :
  forallb (fun env =>
             connection_check_due (millis env) g
             && negb (tb_connected env) && negb (tb_connect env)
             && link_up_within fuel (wifi_status env)) envs = true ->
  exists calls g' t,
    run_loop fuel envs g = Some (Normal calls g' t)
    /\ List.length calls = List.length envs
    /\ count (is_establish_with false) t = List.length envs
    /\ count (is_establish_with true) t = 0%nat
    /\ count is_poll t = 0%nat
    /\ count is_sensor_read t = 0%nat
    /\ lastConnectionCheckMillis g' = lastConnectionCheckMillis g
    /\ lastTelemetryMillis g' = lastTelemetryMillis g
    /\ sendInitialTelemetry g' = sendInitialTelemetry g
    /\ mqttConnected g' = (match envs with [] => mqttConnected g | _ => false end).
Proof.
  unfold connection_check_due.
  remember (lastConnectionCheckMillis g) as mark eqn:Hmark. symmetry in Hmark.
  revert g Hmark.
  induction envs as [|env rest IH]; intros g Hmark Hall.
  - exists [], g, []. repeat split; assumption.
  - cbn [forallb] in Hall. apply andb_prop in Hall as [Henv Hall].
    apply andb_prop in Henv as [Henv Hlink].
    apply andb_prop in Henv as [Henv He]. apply andb_prop in Henv as [Hdue Hc].
    apply negb_true_iff in Hc, He.
    assert (Hdue' : connection_check_due (millis env) g = true)
      by (unfold connection_check_due; now rewrite Hmark).
    destruct (loop_establish_fails fuel env g Hlink Hdue' Hc He)
      as (w & Hw & E).
    assert (Hmark1 : lastConnectionCheckMillis
                       (apply_store (Set_mqttConnected false) g) = mark)
      by (now destruct g).
    destruct (IH _ Hmark1 Hall)
      as (calls & g' & t & Er & Hlen & Hf & Hs & Hp & Hr & Hm & Hlt & Hsi & Hmc).
    cbn [run_loop]. unfold bind, traced, ret. rewrite E, Er.
    do 3 eexists. split; [reflexivity|].
    cbn [List.length]. rewrite app_nil_r.
    unfold count in *. rewrite !filter_app, !length_app, Hf, Hs, Hp, Hr.
    cbn [filter List.length is_establish_with is_poll is_sensor_read].
    rewrite !filter_app, !length_app.
    repeat (rewrite (link_events_none _ w) by first [exact Hw | no_link_event]).
    cbn. rewrite Hlen, Hm, Hlt, Hsi.
    repeat split; try reflexivity; try (now destruct g).
    destruct rest; [now destruct g | exact Hmc].
Qed.

(** X12.  In any run of [loop], the update subscription is made once for
    each session-establish call that succeeds, and the firmware title and
    state are sent with it, so twice as many firmware sends as
    subscriptions: every reconnection arms the update again, and nothing
    else does. *)
Theorem subscription_per_established_session
  (fuel : nat) (envs : list tick) (g g' : globals)
  (calls : list (Z * list event)) (t : list event) :
  run_loop fuel envs g = Some (Normal calls g' t) ->
  List.length calls = List.length envs
  /\ count is_subscribe t = count (is_establish_with true) t
  /\ count is_firmware_send t = (2 * count is_subscribe t)%nat.
Proof.
  revert g calls g' t.
  induction envs as [|env rest IH]; intros g calls g' t H.
  - inversion H; subst. repeat split.
  - destruct (run_loop_cons fuel env rest g _ H)
      as (g1 & t1 & calls1 & g2 & t2 & E1 & E2 & Eq).
    inversion Eq; subst calls g' t.
    destruct (loop_step fuel env g _ E1)
      as (ga & ta & Ea & _ & _ & _ & Hs & Hf & _).
    inversion Ea; subst ga ta.
    destruct (IH g1 calls1 g2 t2 E2) as (Hl2 & Hs2 & Hf2).
    cbn [List.length].
    unfold count in *. rewrite !filter_app, !length_app.
    repeat split; lia.
Qed.


(** ** The credentials loader and the store *)

Lemma same_key_eq (a b : string * string) : same_key a b = true <-> a = b.
Proof.
  destruct a as [a1 a2], b as [b1 b2]. unfold same_key. cbn [fst snd].
  rewrite andb_true_iff, !String.eqb_eq. split.
  - intros [-> ->]. reflexivity.
  - intros H. inversion H. split; reflexivity.
Qed.

Lemma nvs_get_put_same (k : string * string) (v : pref_value) (store : nvs) :
  nvs_get k (nvs_put k v store) = Some v.
Proof.
  induction store as [|[k' w] rest IH]; cbn [nvs_put nvs_get].
  - now rewrite (proj2 (same_key_eq k k) eq_refl).
  - destruct (same_key k' k) eqn:E; cbn [nvs_get]; rewrite E; [reflexivity|exact IH].
Qed.

Lemma nvs_get_put_other (k kp : string * string) (v : pref_value)
  (store : nvs) :
  kp <> k -> nvs_get k (nvs_put kp v store) = nvs_get k store.
Proof.
  intros Hne. induction store as [|[k' w] rest IH]; cbn [nvs_put nvs_get].
  - destruct (same_key kp k) eqn:E; [|reflexivity].
    apply same_key_eq in E. contradiction.
  - destruct (same_key k' kp) eqn:Ep; cbn [nvs_get].
    + destruct (same_key k' k) eqn:Ek; [|reflexivity].
      apply same_key_eq in Ep, Ek. congruence.
    + destruct (same_key k' k); [reflexivity|exact IH].
Qed.

Lemma nvs_put_get_id (k : string * string) (v : pref_value) (store : nvs) :
  nvs_get k store = Some v -> nvs_put k v store = store.
Proof.
  induction store as [|[k' w] rest IH]; cbn [nvs_put nvs_get]; [discriminate|].
  destruct (same_key k' k).
  - intros H. inversion H. reflexivity.
  - intros H. now rewrite (IH H).
Qed.

Ltac nvs_lookup :=
  repeat first
    [ rewrite nvs_get_put_same
    | rewrite nvs_get_put_other by (intros Hk; inversion Hk; discriminate) ].

(** What the loader leaves under its five keys. *)
Lemma loader_setup_gets (sec : secrets) (store : nvs) :
  let store' := fst (loader_setup sec store) in
  nvs_get ("credentials", "ssid") store' = Some (Pref_string (SECRET_SSID sec))
  /\ nvs_get ("credentials", "password") store'
     = Some (Pref_string (SECRET_SSID_PASS sec))
  /\ nvs_get ("credentials", "mac") store' = Some (Pref_bytes (SECRET_MAC sec))
  /\ nvs_get ("credentials", "channel") store'
     = Some (Pref_int (SECRET_WIFI_CHANNEL sec))
  /\ nvs_get ("credentials", "mqtt_token") store'
     = Some (Pref_string (SECRET_MQTT_TOKEN sec)).
Proof.
  unfold loader_setup. cbn [fst]. repeat split; nvs_lookup; reflexivity.
Qed.

(** X14.  The loader writes the namespace "credentials" only, and there
    the five keys "ssid", "password", "mac", "channel" and "mqtt_token": every
    other entry of the store reads as before.  Whatever the store held under
    the five keys is replaced, and running the loader a second time changes
    nothing. *)
Theorem loader_setup_store (sec : secrets) (store : nvs) :
  let store' := fst (loader_setup sec store) in
  (forall name key,
     (name <> "credentials"
      \/ ~ In key ["ssid"; "password"; "mac"; "channel"; "mqtt_token"]) ->
     nvs_get (name, key) store' = nvs_get (name, key) store)
  /\ read_credentials store' [0; 0; 0; 0; 0; 0] =
       read_credentials (fst (loader_setup sec [])) [0; 0; 0; 0; 0; 0]
  /\ fst (loader_setup sec store') = store'.
Proof.
  cbn zeta. split; [|split].
  - intros name key Hother. unfold loader_setup. cbn [fst].
    rewrite !nvs_get_put_other; [reflexivity| | | | |];
      intros Hk; inversion Hk; subst; destruct Hother as [Hn|Hn];
      try (apply Hn; reflexivity); apply Hn; cbn; tauto.
  - destruct (loader_setup_gets sec store) as (H1 & H2 & H3 & H4 & H5).
    destruct (loader_setup_gets sec []) as (E1 & E2 & E3 & E4 & E5).
    cbn zeta in *.
    unfold read_credentials, stored_string, stored_int, stored_bytes.
    now rewrite H1, H2, H3, H4, H5, E1, E2, E3, E4, E5.
  - destruct (loader_setup_gets sec store) as (H1 & H2 & H3 & H4 & H5).
    cbn zeta in *. remember (fst (loader_setup sec store)) as s eqn:Hs.
    unfold loader_setup. cbn [fst].
    rewrite (nvs_put_get_id _ _ s H1), (nvs_put_get_id _ _ s H2),
      (nvs_put_get_id _ _ s H3), (nvs_put_get_id _ _ s H4),
      (nvs_put_get_id _ _ s H5). reflexivity.
Qed.

(** X15.  What the loader stores is what the gateway boots with: [setup] of
    main.cpp, run on the store the loader leaves, has the SSID, password,
    channel and token of [secrets.h] in the globals and calls [WiFi.begin]
    with them.  The MAC is taken over when it has 1 to 6 bytes (the rest of
    the 6-byte buffer stays zero) and is ignored when it is empty or
    longer. *)
Theorem loader_then_boot
  (fuel : nat) (sec : secrets) (store : nvs) (status : nat -> bool) :
  existsb status (seq 0 fuel) = true ->
  exists g' t,
    boot fuel (fst (loader_setup sec store)) status globals_init
      = Some (Normal tt g' t)
    /\ wifiSSID g' = SECRET_SSID sec
    /\ wifiPassword g' = SECRET_SSID_PASS sec
    /\ wifiChannel g' = SECRET_WIFI_CHANNEL sec
    /\ mqttToken g' = SECRET_MQTT_TOKEN sec
    /\ routerMAC g' =
         (let n := List.length (SECRET_MAC sec) in
          if (0 <? n)%nat && (n <=? 6)%nat
          then SECRET_MAC sec ++ skipn n [0; 0; 0; 0; 0; 0]
          else [0; 0; 0; 0; 0; 0])
    /\ (List.length (SECRET_MAC sec) = 6%nat -> routerMAC g' = SECRET_MAC sec)
    /\ filter is_wifi_begin t =
         [WiFi_begin (SECRET_SSID sec) (SECRET_SSID_PASS sec)
            (SECRET_WIFI_CHANNEL sec) (routerMAC g')].
Proof.
  intros Hlink.
  destruct (loader_setup_gets sec store) as (H1 & H2 & H3 & H4 & H5).
  cbn zeta in *. remember (fst (loader_setup sec store)) as s eqn:Hs.
  unfold boot, bind, read. cbn [routerMAC globals_init].
  destruct (setup_outcome fuel
              (read_credentials s [0; 0; 0; 0; 0; 0]) status globals_init Hlink)
    as (g' & t & E & Hg & Hb).
  rewrite E. exists g', (t). rewrite app_nil_l. split; [reflexivity|].
  rewrite Hb. subst g'.
  unfold read_credentials, stored_string, stored_int, stored_bytes.
  rewrite H1, H2, H3, H4, H5.
  cbn [pref_ssid pref_password pref_mac pref_channel pref_mqtt_token
       getString getInt wifiSSID wifiPassword wifiChannel mqttToken routerMAC
       globals_init].
  assert (Hmac :
    match
      (if (0 <? List.length (SECRET_MAC sec))%nat
          && (List.length (SECRET_MAC sec) <=? 6)%nat
       then Some (SECRET_MAC sec
                  ++ skipn (List.length (SECRET_MAC sec)) [0; 0; 0; 0; 0; 0])
       else None)
    with
    | Some bytes => bytes
    | None => [0; 0; 0; 0; 0; 0]
    end =
    (if (0 <? List.length (SECRET_MAC sec))%nat
        && (List.length (SECRET_MAC sec) <=? 6)%nat
     then SECRET_MAC sec
          ++ skipn (List.length (SECRET_MAC sec)) [0; 0; 0; 0; 0; 0]
     else [0; 0; 0; 0; 0; 0])) by (now destruct (_ && _)).
  rewrite Hmac. repeat split.
  intros H6. rewrite H6. cbn. apply app_nil_r.
Qed.

(** X16.  A store with nothing under the namespace "credentials": [setup]
    does not fail, it calls [WiFi.begin] with an empty SSID, an empty
    password, channel 0 and the all-zero MAC, and keeps an empty token for
    the session. *)
Theorem boot_without_credentials
  (fuel : nat) (store : nvs) (status : nat -> bool) :
  (forall key, nvs_get ("credentials", key) store = None) ->
  existsb status (seq 0 fuel) = true ->
  exists g' t,
    boot fuel store status globals_init = Some (Normal tt g' t)
    /\ mqttToken g' = ""
    /\ filter is_wifi_begin t = [WiFi_begin "" "" 0 [0; 0; 0; 0; 0; 0]]
    /\ firmwareTitle g' = Some "PT100_Cold_Storage"
    /\ sendInitialTelemetry g' = true.
Proof.
  intros Hnone Hlink.
  unfold boot, bind, read. cbn [routerMAC globals_init].
  destruct (setup_outcome fuel
              (read_credentials store [0; 0; 0; 0; 0; 0]) status globals_init
              Hlink) as (g' & t & E & Hg & Hb).
  rewrite E. exists g', t. rewrite app_nil_l. split; [reflexivity|].
  rewrite Hb. subst g'.
  unfold read_credentials, stored_string, stored_int, stored_bytes.
  rewrite !Hnone. repeat split.
Qed.

(** ** The progress throttle in mid-cycle *)

(** X17.  The throttle of the progress callback from any point of its
    cycle: with [counter = c], [0 <= c < 10], a sequence of [n] calls sends
    the attribute [(c + n) / 10] times and leaves [counter] at
    [(c + n) mod 10], again below 10.  The calls write no other global. *)
Theorem progress_throttle_invariant
  (calls : list (Z * Z)) (g : globals) (c : nat) :
  counter g = Z.of_nat c ->
  (c < 10)%nat ->
  exists g' t per,
    progress_run calls g = Some (Normal per g' t)
    /\ count is_progress_attribute t = ((c + List.length calls) / 10)%nat
    /\ g' = apply_store
              (Set_counter (Z.of_nat ((c + List.length calls) mod 10))) g
    /\ 0 <= counter g' < 10.
Proof.
  revert g c. induction calls as [|[chunk total] rest IH]; intros g c Hc Hlt.
  - exists g, [], []. cbn [progress_run List.length].
    rewrite Nat.add_0_r, Nat.div_small, Nat.mod_small by lia.
    repeat split; try lia. destruct g; cbn in *; now subst.
  - destruct (onOtaProgress_step chunk total g c Hc Hlt)
      as (g1 & t1 & E1 & _ & Hg1 & Ht1).
    destruct (progress_arith c (List.length rest) Hlt) as (Hdiv & Hmod & Hlt1).
    assert (Hc1 : counter g1 = Z.of_nat (S c mod 10))
      by (rewrite Hg1; now destruct g).
    destruct (IH g1 (S c mod 10)%nat Hc1 Hlt1)
      as (g' & t & per & E & Hcnt & Hg' & Hrange).
    cbn [progress_run]. unfold bind, traced, read, ret. rewrite E1, E.
    do 3 eexists. split; [reflexivity|]. cbn [List.length]. split.
    { rewrite app_nil_r. cbn [app]. unfold count in *.
      rewrite filter_app, length_app, Hcnt, Hdiv, Ht1.
      destruct (S c mod 10 =? 0)%nat;
        cbn [filter is_progress_attribute List.length]; lia. }
    split; [|exact Hrange].
    rewrite Hg', Hg1, Hmod. now destruct g.
Qed.

End Gateway.

(** From here on the type of floats is left to be inferred. *)
Arguments Normal {float32 A} a g t.
Arguments Restarted {float32 A} t.
Arguments Set_firmwareTitle {float32}.
Arguments Set_wifiSSID {float32}.
Arguments Set_wifiPassword {float32}.
Arguments Set_routerMAC {float32}.
Arguments Set_wifiChannel {float32}.
Arguments Set_mqttToken {float32}.
Arguments Set_lastTelemetryMillis {float32}.
Arguments Set_lastConnectionCheckMillis {float32}.
Arguments Set_sendInitialTelemetry {float32}.
Arguments Set_temperatureCelsius {float32}.
Arguments Set_mqttConnected {float32}.
Arguments Set_telemetryJson {float32}.
Arguments Clear_telemetryJson {float32}.
Arguments Set_jsonBuffer {float32}.
Arguments Set_counter {float32}.
Arguments Store {float32}.
Arguments Serial_begin {float32}.
Arguments Serial_print {float32}.
Arguments Serial_println {float32}.
Arguments Delay {float32}.
Arguments Preferences_begin {float32}.
Arguments Preferences_end {float32}.
Arguments WiFi_begin {float32}.
Arguments WiFi_status {float32}.
Arguments Pt100_begin {float32}.
Arguments Pt100_temperature {float32}.
Arguments Tb_connected {float32}.
Arguments Tb_connect {float32}.
Arguments Firmware_Send_Info {float32}.
Arguments Firmware_Send_State {float32}.
Arguments Subscribe_Firmware_Update {float32}.
Arguments SendTelemetryJson {float32}.
Arguments SendAttributeData {float32}.
Arguments Tb_loop {float32}.
Arguments Esp_restart {float32}.
Arguments Millis {float32}.
Arguments firmwareTitle {float32}.
Arguments wifiSSID {float32}.
Arguments wifiPassword {float32}.
Arguments routerMAC {float32}.
Arguments wifiChannel {float32}.
Arguments mqttToken {float32}.
Arguments lastTelemetryMillis {float32}.
Arguments lastConnectionCheckMillis {float32}.
Arguments sendInitialTelemetry {float32}.
Arguments temperatureCelsius {float32}.
Arguments mqttConnected {float32}.
Arguments telemetryJson {float32}.
Arguments jsonBuffer {float32}.
Arguments counter {float32}.
Arguments millis {float32}.
Arguments wifi_status {float32}.
Arguments tb_connected {float32}.
Arguments tb_connect {float32}.
Arguments pt100_temperature {float32}.
Arguments mkGlobals {float32}.
Arguments mkTick {float32}.
Arguments globals_init {float32}.
Arguments globals_booted {float32}.
Arguments apply_store {float32}.
Arguments json_set {float32}.
Arguments link_event {float32}.
Arguments is_session_query {float32}.
Arguments is_sensor_read {float32}.
Arguments is_establish {float32}.
Arguments is_establish_with {float32}.
Arguments is_publish {float32}.
Arguments is_poll {float32}.
Arguments is_firmware_send {float32}.
Arguments is_subscribe {float32}.
Arguments is_progress_attribute {float32}.
Arguments is_restart {float32}.
Arguments writes_mqttConnected {float32}.
Arguments occurs {float32}.
Arguments count {float32}.
Arguments replay {float32}.
Arguments replay_step {float32}.
Arguments loop {float32}.
Arguments setup {float32}.
Arguments telemetry_block {float32}.
Arguments connectivity_block {float32}.
Arguments session_block {float32}.
Arguments connection_check_due {float32}.
Arguments telemetry_due {float32}.
Arguments onOtaProgress {float32}.
Arguments onOtaCompleted {float32}.
Arguments progress_run {float32}.
Arguments ensureWiFiConnection {float32}.
Arguments connectWiFi {float32}.
Arguments wifi_wait {float32}.
Arguments tick_establish_fails {float32}.
Arguments tick_establish_succeeds {float32}.
Arguments tick_connected {float32}.
Arguments tick_link_drop {float32}.
Arguments run_loop {float32}.
Arguments sensor_read_times {float32}.
Arguments is_wifi_begin {float32}.
Arguments wifi_retry {float32}.
Arguments wait_event {float32}.
Arguments boot {float32}.
Arguments same_configuration {float32}.
Arguments tick_fails_at {float32}.

(** * Runs on sample inputs

    Each theorem above that has hypotheses is applied here to one of the
    sample inputs, with samples as integers. *)

(** [setup] on [sample_prefs], with the link up at the third poll. *)
Lemma setup_sample_prefs :
  setup 3 sample_prefs (link_up_from 2) (globals_init 0) =
    Some (Normal tt (globals_booted 0)
            [Serial_begin 115200; Delay 1000;
             Preferences_begin "credentials" true;
             Store (Set_wifiSSID "plant"); Store (Set_wifiPassword "secret");
             Store (Set_routerMAC [222; 173; 190; 239; 0; 1]);
             Store (Set_wifiChannel 6); Store (Set_mqttToken "TOKEN");
             Preferences_end;
             Store (Set_firmwareTitle "PT100_Cold_Storage");
             Serial_println "Connecting to WiFi...";
             WiFi_begin "plant" "secret" 6 [222; 173; 190; 239; 0; 1];
             WiFi_status false; Delay 500; Serial_print ".";
             WiFi_status false; Delay 500; Serial_print ".";
             WiFi_status true;
             Serial_println (String "010"%char "WiFi connected");
             Pt100_begin]).
Proof. reflexivity. Qed.

Lemma timers_fire_and_reset_witness :
  link_up_within 0 (wifi_status (tick_establish_succeeds 215)) = true /\
   link_up_within 0 (wifi_status (tick_connected 6000 215)) = true /\
   exists
     (g' : globals Z) (t : list (event Z)) (g2 : globals Z) 
   (t2 : list (event Z)),
     loop sample_serialize 0 (tick_establish_succeeds 215) (globals_booted 0) =
     Some (Normal tt g' t) /\
     loop sample_serialize 0 (tick_connected 6000 215) g' =
     Some (Normal tt g2 t2) /\
     occurs is_session_query t =
     (CONNECTION_CHECK_MS <=?
      ulong_sub (millis (tick_establish_succeeds 215))
        (lastConnectionCheckMillis (globals_booted 0))) /\
     (occurs (is_establish_with false) t = false ->
      occurs is_sensor_read t =
      (TELEMETRY_INTERVAL_MS <=?
       ulong_sub (millis (tick_establish_succeeds 215))
         (lastTelemetryMillis (globals_booted 0)))
      || sendInitialTelemetry (globals_booted 0) /\
      (occurs is_session_query t = true ->
       lastConnectionCheckMillis g' = millis (tick_establish_succeeds 215) /\
       occurs is_session_query t2 =
       (CONNECTION_CHECK_MS <=?
        ulong_sub (millis (tick_connected 6000 215))
          (millis (tick_establish_succeeds 215)))) /\
      (occurs is_sensor_read t = true ->
       lastTelemetryMillis g' = millis (tick_establish_succeeds 215) /\
       (occurs (is_establish_with false) t2 = false ->
        occurs is_sensor_read t2 =
        (TELEMETRY_INTERVAL_MS <=?
         ulong_sub (millis (tick_connected 6000 215))
           (millis (tick_establish_succeeds 215)))))).
Proof.
  do 2 (split; [reflexivity|]).
  exact (timers_fire_and_reset Z sample_serialize 0%nat (tick_establish_succeeds 215) (tick_connected 6000 215) (globals_booted 0) eq_refl eq_refl).
Defined.

Lemma publish_iff_connected_witness :
  link_up_within 0 (wifi_status (tick_connected 7000 215)) = true /\
   (exists (g1 : globals Z) (t1 : list (event Z)),
      telemetry_block sample_serialize (tick_connected 7000 215) 7000
        (apply_store (Set_mqttConnected true) (globals_booted 0)) =
      Some (Normal tt g1 t1) /\
      occurs is_publish t1 =
      mqttConnected (apply_store (Set_mqttConnected true) (globals_booted 0)) /\
      count is_publish t1 =
      (if
        mqttConnected (apply_store (Set_mqttConnected true) (globals_booted 0))
       then 1%nat
       else 0%nat) /\
      (mqttConnected (apply_store (Set_mqttConnected true) (globals_booted 0)) =
       true ->
       In
         (SendTelemetryJson
            (sample_serialize
               (json_set "temperature_celsius"
                  (pt100_temperature (tick_connected 7000 215))
                  (telemetryJson
                     (apply_store (Set_mqttConnected true) (globals_booted 0))))))
         t1 /\
       (telemetryJson (apply_store (Set_mqttConnected true) (globals_booted 0)) =
        [] -> telemetryJson g1 = [])) /\
      (mqttConnected (apply_store (Set_mqttConnected true) (globals_booted 0)) =
       false ->
       t1 =
       [Store (Set_sendInitialTelemetry false);
        Pt100_temperature 100 430 (pt100_temperature (tick_connected 7000 215));
        Store
          (Set_temperatureCelsius (pt100_temperature (tick_connected 7000 215)));
        Store (Set_lastTelemetryMillis 7000)] /\
       telemetryJson g1 =
       telemetryJson (apply_store (Set_mqttConnected true) (globals_booted 0)) /\
       jsonBuffer g1 =
       jsonBuffer (apply_store (Set_mqttConnected true) (globals_booted 0)) /\
       temperatureCelsius g1 = pt100_temperature (tick_connected 7000 215))) /\
   exists (g' : globals Z) (t : list (event Z)),
     loop sample_serialize 0 (tick_connected 7000 215)
       (apply_store (Set_mqttConnected true) (globals_booted 0)) =
     Some (Normal tt g' t) /\
     occurs is_publish t = occurs is_sensor_read t && mqttConnected g' /\
     (forall payload : string,
      In (SendTelemetryJson payload) t ->
      payload =
      sample_serialize
        (json_set "temperature_celsius"
           (pt100_temperature (tick_connected 7000 215))
           (telemetryJson
              (apply_store (Set_mqttConnected true) (globals_booted 0))))) /\
     (forall (v : Z) (b : string),
      exists g2 : globals Z,
        loop sample_serialize 0 (tick_connected 7000 215)
          (apply_store (Set_temperatureCelsius v)
             (apply_store (Set_jsonBuffer b)
                (apply_store (Set_mqttConnected true) (globals_booted 0)))) =
        Some (Normal tt g2 t)).
Proof.
  do 1 (split; [reflexivity|]).
  exact (publish_iff_connected Z sample_serialize 0%nat (tick_connected 7000 215) 7000 (apply_store (Set_mqttConnected true) (globals_booted 0)) eq_refl).
Defined.

Lemma poll_unless_establish_fails_witness :
  link_up_within 2 (wifi_status (tick_link_drop 5000 215)) = true /\
   exists (g' : globals Z) (t : list (event Z)),
     loop sample_serialize 2 (tick_link_drop 5000 215) (globals_booted 0) =
     Some (Normal tt g' t) /\
     count is_poll t =
     (if
       connection_check_due (millis (tick_link_drop 5000 215))
         (globals_booted 0) &&
       negb (tb_connected (tick_link_drop 5000 215)) &&
       negb (tb_connect (tick_link_drop 5000 215))
      then 0%nat
      else 1%nat) /\
     occurs is_poll t = negb (occurs (is_establish_with false) t).
Proof.
  do 1 (split; [reflexivity|]).
  exact (poll_unless_establish_fails Z sample_serialize 2%nat (tick_link_drop 5000 215) (globals_booted 0) eq_refl).
Defined.

Lemma progress_every_tenth_witness :
  counter (globals_booted 0) = 0 /\
   exists
     (g' : globals Z) (t : list (event Z)) (per : list (list (event Z) * Z)),
     progress_run sample_percent (repeat (4096, 65536) 25) (globals_booted 0) =
     Some (Normal per g' t) /\
     Datatypes.length per = Datatypes.length (repeat (4096, 65536) 25) /\
     count is_progress_attribute t =
     (Datatypes.length (repeat (4096%Z, 65536%Z) 25) / 10)%nat /\
     counter g' = Z.of_nat (Datatypes.length (repeat (4096, 65536) 25) mod 10) /\
     (forall (k : nat) (chunk total : Z),
      nth_error (repeat (4096, 65536) 25) k = Some (chunk, total) ->
      exists (tk : list (event Z)) (ck : Z),
        nth_error per k = Some (tk, ck) /\
        occurs is_progress_attribute tk = (S k mod 10 =? 0)%nat /\
        count is_progress_attribute tk =
        (if (S k mod 10 =? 0)%nat then 1%nat else 0%nat) /\
        ck = Z.of_nat (S k mod 10) /\
        ((S k mod 10 =? 0)%nat = true ->
         tk =
         [Store (Set_counter 10);
          SendAttributeData "OTA_Progress" (sample_percent chunk total);
          Store (Set_counter 0)] /\
         ck = 0)).
Proof.
  do 1 (split; [reflexivity|]).
  exact (progress_every_tenth Z sample_percent (List.repeat (4096, 65536) 25) (globals_booted 0) eq_refl).
Defined.

Lemma establish_then_arm_witness :
  link_up_within 0 (wifi_status (tick_establish_succeeds 215)) = true /\
   exists (g' : globals Z) (t : list (event Z)),
     loop sample_serialize 0 (tick_establish_succeeds 215) (globals_booted 0) =
     Some (Normal tt g' t) /\
     count is_subscribe t = count (is_establish_with true) t /\
     count is_subscribe t =
     (if
       connection_check_due (millis (tick_establish_succeeds 215))
         (globals_booted 0) &&
       negb (tb_connected (tick_establish_succeeds 215)) &&
       tb_connect (tick_establish_succeeds 215)
      then 1%nat
      else 0%nat) /\
     (connection_check_due (millis (tick_establish_succeeds 215))
        (globals_booted 0) =
      true ->
      tb_connected (tick_establish_succeeds 215) = false ->
      tb_connect (tick_establish_succeeds 215) = true ->
      exists w rest : list (event Z),
        forallb link_event w = true /\
        t =
        Millis (millis (tick_establish_succeeds 215))
        :: w ++
           [Tb_connected false; Store (Set_mqttConnected false);
            Tb_connect MQTT_SERVER (mqttToken (globals_booted 0)) MQTT_PORT
              true;
            Store (Set_mqttConnected true);
            Firmware_Send_Info (firmwareTitle (globals_booted 0)) "1.3.0";
            Firmware_Send_State "UPDATED";
            Subscribe_Firmware_Update
              {|
                ota_progress := Fn_onOtaProgress;
                ota_completed := Fn_onOtaCompleted;
                ota_title := firmwareTitle (globals_booted 0);
                ota_version := "1.3.0";
                ota_retries := 24;
                ota_packet_size := 4096
              |};
            Store
              (Set_lastConnectionCheckMillis
                 (millis (tick_establish_succeeds 215)))] ++
           rest /\
        mqttConnected g' = true).
Proof.
  do 1 (split; [reflexivity|]).
  exact (establish_then_arm Z sample_serialize 0%nat (tick_establish_succeeds 215) (globals_booted 0) eq_refl).
Defined.

Lemma initial_telemetry_once_witness :
  existsb (link_up_from 2) (seq 0 3) = true /\
   link_up_within 3 (wifi_status (tick_establish_succeeds 215)) = true /\
   sendInitialTelemetry (globals_init 0) = true /\
   (exists (g0 : globals Z) (t0 : list (event Z)),
      setup 3 sample_prefs (link_up_from 2) (globals_init 0) =
      Some (Normal tt g0 t0) /\
      sendInitialTelemetry g0 = true /\ lastTelemetryMillis g0 = 0) /\
   exists (g' : globals Z) (t : list (event Z)),
     loop sample_serialize 3 (tick_establish_succeeds 215) (globals_booted 0) =
     Some (Normal tt g' t) /\
     (sendInitialTelemetry (globals_booted 0) = true ->
      occurs (is_establish_with false) t = false ->
      occurs is_sensor_read t = true /\
      sendInitialTelemetry g' = false /\
      lastTelemetryMillis g' = millis (tick_establish_succeeds 215)) /\
     (sendInitialTelemetry (globals_booted 0) = true ->
      occurs (is_establish_with false) t = true ->
      occurs is_sensor_read t = false /\ sendInitialTelemetry g' = true) /\
     (sendInitialTelemetry (globals_booted 0) = false ->
      sendInitialTelemetry g' = false /\
      occurs is_sensor_read t =
      (TELEMETRY_INTERVAL_MS <=?
       ulong_sub (millis (tick_establish_succeeds 215))
         (lastTelemetryMillis (globals_booted 0))) &&
      negb (occurs (is_establish_with false) t)).
Proof.
  do 2 (split; [reflexivity|]).
  exact (initial_telemetry_once Z 0 sample_serialize 3%nat sample_prefs (link_up_from 2) (tick_establish_succeeds 215) (globals_booted 0) eq_refl eq_refl).
Defined.

Lemma connected_check_is_idle_witness :
  connection_check_due (millis (tick_connected 7000 215))
     (apply_store (Set_mqttConnected true) (globals_booted 0)) =
   true /\
   wifi_status (tick_connected 7000 215) 0 = true /\
   tb_connected (tick_connected 7000 215) = true /\
   connectivity_block 0 (tick_connected 7000 215)
     (millis (tick_connected 7000 215))
     (apply_store (Set_mqttConnected true) (globals_booted 0)) =
   Some
     (Normal Falls_through
        (apply_store
           (Set_lastConnectionCheckMillis (millis (tick_connected 7000 215)))
           (apply_store (Set_mqttConnected true) (globals_booted 0)))
        [WiFi_status true; Tb_connected true;
         Store
           (Set_lastConnectionCheckMillis (millis (tick_connected 7000 215)))]) /\
   exists (g' : globals Z) (rest : list (event Z)),
     let t :=
       Millis (millis (tick_connected 7000 215))
       :: WiFi_status true
          :: Tb_connected true
             :: Store
                  (Set_lastConnectionCheckMillis
                     (millis (tick_connected 7000 215)))
                :: rest
       in
     loop sample_serialize 0 (tick_connected 7000 215)
       (apply_store (Set_mqttConnected true) (globals_booted 0)) =
     Some (Normal tt g' t) /\
     occurs is_establish t = false /\
     occurs writes_mqttConnected t = false /\
     occurs is_firmware_send t = false /\
     occurs is_subscribe t = false /\
     mqttConnected g' =
     mqttConnected (apply_store (Set_mqttConnected true) (globals_booted 0)).
Proof.
  do 3 (split; [reflexivity|]).
  exact (connected_check_is_idle Z sample_serialize 0%nat (tick_connected 7000 215) (apply_store (Set_mqttConnected true) (globals_booted 0)) eq_refl eq_refl eq_refl).
Defined.

Lemma mqttConnected_written_by_supervisor_only_witness :
  existsb (link_up_from 2) (seq 0 3) = true /\
   link_up_within 3 (wifi_status (tick_establish_succeeds 215)) = true /\
   mqttConnected (globals_init 0) = false /\
   (exists (g' : globals Z) (t : list (event Z)),
      setup 3 sample_prefs (link_up_from 2) (globals_init 0) =
      Some (Normal tt g' t) /\
      g' = replay t (globals_init 0) /\
      occurs writes_mqttConnected t = false /\
      mqttConnected g' = mqttConnected (globals_init 0)) /\
   (exists (g' : globals Z) (t : list (event Z)),
      telemetry_block sample_serialize (tick_establish_succeeds 215) 5001
        (globals_init 0) =
      Some (Normal tt g' t) /\
      g' = replay t (globals_init 0) /\
      occurs writes_mqttConnected t = false /\
      mqttConnected g' = mqttConnected (globals_init 0)) /\
   (exists (g' : globals Z) (t : list (event Z)),
      onOtaProgress sample_percent 4096 65536 (globals_init 0) =
      Some (Normal tt g' t) /\
      g' = replay t (globals_init 0) /\
      occurs writes_mqttConnected t = false /\
      mqttConnected g' = mqttConnected (globals_init 0)) /\
   (exists t : list (event Z),
      occurs writes_mqttConnected t = false /\
      onOtaCompleted false (globals_init 0) =
      Some (if false then Restarted t else Normal tt (globals_init 0) t)) /\
   exists (g' : globals Z) (t : list (event Z)),
     loop sample_serialize 3 (tick_establish_succeeds 215) (globals_init 0) =
     Some (Normal tt g' t) /\
     g' = replay t (globals_init 0) /\
     occurs writes_mqttConnected t =
     connection_check_due (millis (tick_establish_succeeds 215))
       (globals_init 0) &&
     negb (tb_connected (tick_establish_succeeds 215)) /\
     (occurs writes_mqttConnected t = false ->
      mqttConnected g' = mqttConnected (globals_init 0)).
Proof.
  do 2 (split; [reflexivity|]).
  exact (mqttConnected_written_by_supervisor_only Z 0 sample_percent sample_serialize 3%nat sample_prefs (link_up_from 2) (tick_establish_succeeds 215) 5001 4096 65536 false (globals_init 0) eq_refl eq_refl).
Defined.

Lemma failed_establish_skips_telemetry_witness :
  link_up_within 0 (wifi_status (tick_establish_fails 215)) = true /\
   connection_check_due (millis (tick_establish_fails 215)) (globals_booted 0) =
   true /\
   tb_connected (tick_establish_fails 215) = false /\
   tb_connect (tick_establish_fails 215) = false /\
   exists (g' : globals Z) (t w : list (event Z)),
     loop sample_serialize 0 (tick_establish_fails 215) (globals_booted 0) =
     Some (Normal tt g' t) /\
     forallb link_event w = true /\
     t =
     Millis (millis (tick_establish_fails 215))
     :: w ++
        [Tb_connected false; Store (Set_mqttConnected false);
         Tb_connect MQTT_SERVER (mqttToken (globals_booted 0)) MQTT_PORT false;
         Serial_println "MQTT connection failed"] /\
     occurs is_sensor_read t = false /\
     occurs is_publish t = false /\
     sendInitialTelemetry g' = sendInitialTelemetry (globals_booted 0) /\
     lastTelemetryMillis g' = lastTelemetryMillis (globals_booted 0) /\
     g' = apply_store (Set_mqttConnected false) (globals_booted 0).
Proof.
  do 4 (split; [reflexivity|]).
  exact (failed_establish_skips_telemetry Z sample_serialize 0%nat (tick_establish_fails 215) (globals_booted 0) eq_refl eq_refl eq_refl eq_refl).
Defined.

(** * Where the specification and the code differ *)

(** C1 as stated fails.  From the state after [setup], at 5000 ms the
    connectivity check is due and the session-establish call fails: the mark
    [lastConnectionCheckMillis] stays 0 instead of becoming 5000.  One
    millisecond later the check is due again and the call is made again; in
    that execution the telemetry block runs although only 5001 ms of the
    900000 ms have passed. *)
Lemma timers_claim_counterexample :
  exists g1 t1 g2 t2,
    loop sample_serialize 0 (tick_establish_fails 215) (globals_booted 0)
      = Some (Normal tt g1 t1)
    /\ occurs is_session_query t1 = true
    /\ occurs (is_establish_with false) t1 = true
    /\ lastConnectionCheckMillis g1 = 0
    /\ millis (tick_establish_fails 215) = 5000
    /\ loop sample_serialize 0 (tick_establish_succeeds 215) g1
         = Some (Normal tt g2 t2)
    /\ occurs is_establish t2 = true
    /\ ulong_sub (millis (tick_establish_succeeds 215))
         (millis (tick_establish_fails 215)) = 1
    /\ occurs is_sensor_read t2 = true
    /\ (TELEMETRY_INTERVAL_MS <=?
          ulong_sub (millis (tick_establish_succeeds 215))
            (lastTelemetryMillis g1)) = false.
Proof. do 4 eexists. repeat split; reflexivity. Qed.

(** C3 as stated fails.  From the state after [setup], at 5000 ms the
    session-establish call fails and [loop] returns after the log line:
    [thingsboard.loop()] is not called in this execution. *)
Lemma poll_every_tick_counterexample :
  exists g' t,
    loop sample_serialize 0 (tick_establish_fails 215) (globals_booted 0)
      = Some (Normal tt g' t)
    /\ t = [Millis 5000; WiFi_status true; Tb_connected false;
            Store (Set_mqttConnected false);
            Tb_connect "mqtt.thingsboard.cloud" "TOKEN" 1883 false;
            Serial_println "MQTT connection failed"]
    /\ occurs is_poll t = false.
Proof. do 2 eexists. repeat split; reflexivity. Qed.

(** * Runs of the further properties on sample inputs *)

Lemma timers_measure_elapsed_time_witness :
  0 <=
   lastConnectionCheckMillis
     (apply_store (Set_lastConnectionCheckMillis 4294966796)
        (apply_store (Set_lastTelemetryMillis 4294000000) (globals_booted 0))) <
   2 ^ 32 /\
   0 <=
   lastTelemetryMillis
     (apply_store (Set_lastConnectionCheckMillis 4294966796)
        (apply_store (Set_lastTelemetryMillis 4294000000) (globals_booted 0))) <
   2 ^ 32 /\
   0 <= 1100 < 2 ^ 32 /\
   connection_check_due
     ((lastConnectionCheckMillis
         (apply_store (Set_lastConnectionCheckMillis 4294966796)
            (apply_store (Set_lastTelemetryMillis 4294000000)
               (globals_booted 0))) +
       1100)
      mod 2 ^ 32)
     (apply_store (Set_lastConnectionCheckMillis 4294966796)
        (apply_store (Set_lastTelemetryMillis 4294000000) (globals_booted 0))) =
   (1000 <=? 1100) /\
   telemetry_due
     ((lastTelemetryMillis
         (apply_store (Set_lastConnectionCheckMillis 4294966796)
            (apply_store (Set_lastTelemetryMillis 4294000000)
               (globals_booted 0))) +
       1100)
      mod 2 ^ 32)
     (apply_store (Set_lastConnectionCheckMillis 4294966796)
        (apply_store (Set_lastTelemetryMillis 4294000000) (globals_booted 0))) =
   (900000 <=? 1100)
   || sendInitialTelemetry
        (apply_store (Set_lastConnectionCheckMillis 4294966796)
           (apply_store (Set_lastTelemetryMillis 4294000000) (globals_booted 0))).
Proof.
  do 3 (split; [first [reflexivity | cbn; lia | intros; reflexivity]|]).
  apply (timers_measure_elapsed_time Z (apply_store (Set_lastConnectionCheckMillis 4294966796) (apply_store (Set_lastTelemetryMillis 4294000000) (globals_booted 0))) 1100); first [reflexivity | cbn; lia | intros; reflexivity].
Defined.

Lemma connectWiFi_waits_for_link_witness :
  forallb (fun j : nat => negb (link_up_from 2 j)) (seq 0 2) = true /\
   link_up_from 2 (0 + 2) = true /\
   (2 < 5)%nat /\
   connectWiFi 5 (link_up_from 2) 0 (globals_booted 0) =
   Some
     (Normal tt (globals_booted 0)
        ([Serial_println "Connecting to WiFi...";
          WiFi_begin (wifiSSID (globals_booted 0))
            (wifiPassword (globals_booted 0)) (wifiChannel (globals_booted 0))
            (routerMAC (globals_booted 0))] ++
         List.concat (repeat wifi_retry 2) ++
         [WiFi_status true; Serial_println (String "010"%char "WiFi connected")])).
Proof.
  do 3 (split; [first [reflexivity | cbn; lia | intros; reflexivity]|]).
  apply (connectWiFi_waits_for_link Z 5%nat 2%nat 0%nat (link_up_from 2) (globals_booted 0)); first [reflexivity | cbn; lia | intros; reflexivity].
Defined.

Lemma ensureWiFiConnection_trace_witness :
  forallb (fun j : nat => negb (link_up_from 2 j)) (seq 0 2) = true /\
   link_up_from 2 2 = true /\
   (2 <= 5)%nat /\
   exists w : list (event Z),
     ensureWiFiConnection 5 (link_up_from 2) (globals_booted 0) =
     Some (Normal true (globals_booted 0) w) /\
     w =
     match 2%nat with
     | 0%nat => [WiFi_status true]
     | S m =>
         [WiFi_status false; Serial_println "Connecting to WiFi...";
          WiFi_begin (wifiSSID (globals_booted 0))
            (wifiPassword (globals_booted 0)) (wifiChannel (globals_booted 0))
            (routerMAC (globals_booted 0))] ++
         List.concat (repeat wifi_retry m) ++
         [WiFi_status true; Serial_println (String "010"%char "WiFi connected")]
     end /\ count is_wifi_begin w = (if link_up_from 2 0 then 0%nat else 1%nat).
Proof.
  do 3 (split; [first [reflexivity | cbn; lia | intros; reflexivity]|]).
  apply (ensureWiFiConnection_trace Z 5%nat 2%nat (link_up_from 2) (globals_booted 0)); first [reflexivity | cbn; lia | intros; reflexivity].
Defined.

Lemma setup_loads_then_connects_witness :
  existsb (link_up_from 2) (seq 0 3) = true /\
   exists (g' : globals Z) (t w : list (event Z)),
     setup 3 sample_prefs (link_up_from 2) (globals_init 0) =
     Some (Normal tt g' t) /\
     g' =
     {|
       firmwareTitle := Some "PT100_Cold_Storage";
       wifiSSID := getString (pref_ssid sample_prefs) "";
       wifiPassword := getString (pref_password sample_prefs) "";
       routerMAC :=
         match pref_mac sample_prefs with
         | Some bytes => bytes
         | None => routerMAC (globals_init 0)
         end;
       wifiChannel := getInt (pref_channel sample_prefs) 0;
       mqttToken := getString (pref_mqtt_token sample_prefs) "";
       lastTelemetryMillis := lastTelemetryMillis (globals_init 0);
       lastConnectionCheckMillis := lastConnectionCheckMillis (globals_init 0);
       sendInitialTelemetry := sendInitialTelemetry (globals_init 0);
       temperatureCelsius := temperatureCelsius (globals_init 0);
       mqttConnected := mqttConnected (globals_init 0);
       telemetryJson := telemetryJson (globals_init 0);
       jsonBuffer := jsonBuffer (globals_init 0);
       counter := counter (globals_init 0)
     |} /\
     t =
     [Serial_begin 115200; Delay 1000; Preferences_begin "credentials" true;
      Store (Set_wifiSSID (wifiSSID g'));
      Store (Set_wifiPassword (wifiPassword g'))] ++
     match pref_mac sample_prefs with
     | Some bytes => [Store (Set_routerMAC bytes)]
     | None => []
     end ++
     [Store (Set_wifiChannel (wifiChannel g'));
      Store (Set_mqttToken (mqttToken g')); Preferences_end;
      Store (Set_firmwareTitle "PT100_Cold_Storage");
      Serial_println "Connecting to WiFi...";
      WiFi_begin (wifiSSID g') (wifiPassword g') (wifiChannel g')
        (routerMAC g')] ++
     w ++ [Pt100_begin] /\
     filter is_wifi_begin w = [] /\ forallb link_event w = true.
Proof.
  do 1 (split; [first [reflexivity | cbn; lia | intros; reflexivity]|]).
  apply (setup_loads_then_connects Z 3%nat sample_prefs (link_up_from 2) (globals_init 0)); first [reflexivity | cbn; lia | intros; reflexivity].
Defined.

Lemma first_loop_after_setup_witness :
  existsb (link_up_from 2) (seq 0 3) = true /\
   link_up_within 3 (wifi_status (tick_establish_succeeds 215)) = true /\
   1000 <= millis (tick_establish_succeeds 215) < 2 ^ 32 /\
   tb_connected (tick_establish_succeeds 215) = false /\
   tb_connect (tick_establish_succeeds 215) = true /\
   exists
     (g0 : globals Z) (t0 : list (event Z)) (g' : globals Z) 
   (w : list (event Z)),
     setup 3 sample_prefs (link_up_from 2) (globals_init 0) =
     Some (Normal tt g0 t0) /\
     forallb link_event w = true /\
     loop sample_serialize 3 (tick_establish_succeeds 215) g0 =
     Some
       (Normal tt g'
          (Millis (millis (tick_establish_succeeds 215))
           :: w ++
              (let sample := pt100_temperature (tick_establish_succeeds 215) in
               let payload :=
                 sample_serialize [("temperature_celsius", sample)] in
               [Tb_connected false; Store (Set_mqttConnected false);
                Tb_connect "mqtt.thingsboard.cloud"
                  (getString (pref_mqtt_token sample_prefs) "") 1883 true;
                Store (Set_mqttConnected true);
                Firmware_Send_Info (Some "PT100_Cold_Storage") "1.3.0";
                Firmware_Send_State "UPDATED";
                Subscribe_Firmware_Update
                  {|
                    ota_progress := Fn_onOtaProgress;
                    ota_completed := Fn_onOtaCompleted;
                    ota_title := Some "PT100_Cold_Storage";
                    ota_version := "1.3.0";
                    ota_retries := 24;
                    ota_packet_size := 4096
                  |};
                Store
                  (Set_lastConnectionCheckMillis
                     (millis (tick_establish_succeeds 215)));
                Store (Set_sendInitialTelemetry false);
                Pt100_temperature 100 430 sample;
                Store (Set_temperatureCelsius sample);
                Store (Set_telemetryJson "temperature_celsius" sample);
                Store (Set_jsonBuffer payload); SendTelemetryJson payload;
                Store Clear_telemetryJson;
                Store
                  (Set_lastTelemetryMillis
                     (millis (tick_establish_succeeds 215)));
                Tb_loop]))).
Proof.
  do 5 (split; [first [reflexivity | cbn; lia | intros; reflexivity]|]).
  apply (first_loop_after_setup Z 0 sample_serialize 3%nat sample_prefs (link_up_from 2) (tick_establish_succeeds 215)); first [reflexivity | cbn; lia | intros; reflexivity].
Defined.

Lemma publish_trusts_flag_witness :
  connection_check_due (millis (tick_connected 500 215))
     (apply_store (Set_mqttConnected true) (globals_booted 0)) =
   false /\
   millis (tick_fails_at 500 215) = millis (tick_connected 500 215) /\
   pt100_temperature (tick_fails_at 500 215) =
   pt100_temperature (tick_connected 500 215) /\
   loop sample_serialize 0 (tick_fails_at 500 215)
     (apply_store (Set_mqttConnected true) (globals_booted 0)) =
   loop sample_serialize 0 (tick_connected 500 215)
     (apply_store (Set_mqttConnected true) (globals_booted 0)) /\
   exists (g' : globals Z) (t : list (event Z)),
     loop sample_serialize 0 (tick_connected 500 215)
       (apply_store (Set_mqttConnected true) (globals_booted 0)) =
     Some (Normal tt g' t) /\
     occurs is_session_query t = false /\
     occurs is_establish t = false /\
     occurs link_event t = false /\
     occurs is_publish t =
     telemetry_due (millis (tick_connected 500 215))
       (apply_store (Set_mqttConnected true) (globals_booted 0)) &&
     mqttConnected (apply_store (Set_mqttConnected true) (globals_booted 0)) /\
     mqttConnected g' =
     mqttConnected (apply_store (Set_mqttConnected true) (globals_booted 0)).
Proof.
  do 3 (split; [first [reflexivity | cbn; lia | intros; reflexivity]|]).
  apply (publish_trusts_flag Z sample_serialize 0%nat 0%nat (tick_connected 500 215) (tick_fails_at 500 215) (apply_store (Set_mqttConnected true) (globals_booted 0))); first [reflexivity | cbn; lia | intros; reflexivity].
Defined.

Lemma failed_establish_retried_every_call_witness :
  forallb
     (fun env : tick Z =>
      connection_check_due (millis env) (globals_booted 0) &&
      negb (tb_connected env) && negb (tb_connect env) &&
      link_up_within 0 (wifi_status env))
     [tick_fails_at 5000 215; tick_fails_at 5001 215; tick_fails_at 5400 215] =
   true /\
   exists
     (calls : list (Z * list (event Z))) (g' : globals Z) 
   (t : list (event Z)),
     run_loop sample_serialize 0
       [tick_fails_at 5000 215; tick_fails_at 5001 215; tick_fails_at 5400 215]
       (globals_booted 0) =
     Some (Normal calls g' t) /\
     Datatypes.length calls =
     Datatypes.length
       [tick_fails_at 5000 215; tick_fails_at 5001 215; tick_fails_at 5400 215] /\
     count (is_establish_with false) t =
     Datatypes.length
       [tick_fails_at 5000 215; tick_fails_at 5001 215; tick_fails_at 5400 215] /\
     count (is_establish_with true) t = 0%nat /\
     count is_poll t = 0%nat /\
     count is_sensor_read t = 0%nat /\
     lastConnectionCheckMillis g' =
     lastConnectionCheckMillis (globals_booted 0) /\
     lastTelemetryMillis g' = lastTelemetryMillis (globals_booted 0) /\
     sendInitialTelemetry g' = sendInitialTelemetry (globals_booted 0) /\
     mqttConnected g' =
     match
       [tick_fails_at 5000 215; tick_fails_at 5001 215; tick_fails_at 5400 215]
     with
     | [] => mqttConnected (globals_booted 0)
     | _ :: _ => false
     end.
Proof.
  do 1 (split; [first [reflexivity | cbn; lia | intros; reflexivity]|]).
  apply (failed_establish_retried_every_call Z sample_serialize 0%nat [tick_fails_at 5000 215; tick_fails_at 5001 215; tick_fails_at 5400 215] (globals_booted 0)); first [reflexivity | cbn; lia | intros; reflexivity].
Defined.

Lemma loader_then_boot_witness :
  existsb (link_up_from 2) (seq 0 3) = true /\
   exists (g' : globals Z) (t : list (event Z)),
     boot 3
       (fst
          (loader_setup Z sample_secrets
             [("other", "ssid", Pref_string "x");
              ("credentials", "ssid", Pref_int 3)]))
       (link_up_from 2) (globals_init 0) =
     Some (Normal tt g' t) /\
     wifiSSID g' = SECRET_SSID sample_secrets /\
     wifiPassword g' = SECRET_SSID_PASS sample_secrets /\
     wifiChannel g' = SECRET_WIFI_CHANNEL sample_secrets /\
     mqttToken g' = SECRET_MQTT_TOKEN sample_secrets /\
     routerMAC g' =
     (let n := Datatypes.length (SECRET_MAC sample_secrets) in
      if (0 <? n)%nat && (n <=? 6)%nat
      then SECRET_MAC sample_secrets ++ skipn n [0; 0; 0; 0; 0; 0]
      else [0; 0; 0; 0; 0; 0]) /\
     (Datatypes.length (SECRET_MAC sample_secrets) = 6%nat ->
      routerMAC g' = SECRET_MAC sample_secrets) /\
     filter is_wifi_begin t =
     [WiFi_begin (SECRET_SSID sample_secrets) (SECRET_SSID_PASS sample_secrets)
        (SECRET_WIFI_CHANNEL sample_secrets) (routerMAC g')].
Proof.
  do 1 (split; [first [reflexivity | cbn; lia | intros; reflexivity]|]).
  apply (loader_then_boot Z 0 3%nat sample_secrets [(("other", "ssid"), Pref_string "x"); (("credentials", "ssid"), Pref_int 3)] (link_up_from 2)); first [reflexivity | cbn; lia | intros; reflexivity].
Defined.

Lemma boot_without_credentials_witness :
  (forall key : string,
    nvs_get ("credentials", key) [("other", "ssid", Pref_string "x")] = None) /\
   existsb (link_up_from 2) (seq 0 3) = true /\
   exists (g' : globals Z) (t : list (event Z)),
     boot 3 [("other", "ssid", Pref_string "x")] (link_up_from 2)
       (globals_init 0) =
     Some (Normal tt g' t) /\
     mqttToken g' = "" /\
     filter is_wifi_begin t = [WiFi_begin "" "" 0 [0; 0; 0; 0; 0; 0]] /\
     firmwareTitle g' = Some "PT100_Cold_Storage" /\
     sendInitialTelemetry g' = true.
Proof.
  do 2 (split; [first [reflexivity | cbn; lia | intros; reflexivity]|]).
  apply (boot_without_credentials Z 0 3%nat [(("other", "ssid"), Pref_string "x")] (link_up_from 2)); first [reflexivity | cbn; lia | intros; reflexivity].
Defined.

Lemma progress_throttle_invariant_witness :
  counter (apply_store (Set_counter 7) (globals_booted 0)) = Z.of_nat 7 /\
   (7 < 10)%nat /\
   exists
     (g' : globals Z) (t : list (event Z)) (per : list (list (event Z) * Z)),
     progress_run sample_percent (repeat (4096, 65536) 25)
       (apply_store (Set_counter 7) (globals_booted 0)) =
     Some (Normal per g' t) /\
     count is_progress_attribute t =
     ((7 + Datatypes.length (repeat (4096%Z, 65536%Z) 25)) / 10)%nat /\
     g' =
     apply_store
       (Set_counter
          (Z.of_nat ((7 + Datatypes.length (repeat (4096, 65536) 25)) mod 10)))
       (apply_store (Set_counter 7) (globals_booted 0)) /\
     0 <= counter g' < 10.
Proof.
  do 2 (split; [first [reflexivity | cbn; lia | intros; reflexivity]|]).
  apply (progress_throttle_invariant Z sample_percent (List.repeat (4096, 65536) 25) (apply_store (Set_counter 7) (globals_booted 0)) 7%nat); first [reflexivity | cbn; lia | intros; reflexivity].
Defined.

Lemma telemetry_document_invariant_witness :
  exists g' t,
    telemetryJson (apply_store (Set_mqttConnected true) (globals_booted 0)) = []
    /\ loop sample_serialize 0 (tick_connected 7000 215) (apply_store (Set_mqttConnected true) (globals_booted 0))
         = Some (Normal tt g' t)
    /\ telemetryJson g' = []
    /\ (count is_publish t <= 1)%nat
    /\ (forall payload, In (SendTelemetryJson payload) t ->
          payload =
            sample_serialize
              [("temperature_celsius",
                pt100_temperature (tick_connected 7000 215))]
          /\ jsonBuffer g' = payload)
    /\ (occurs is_publish t = false ->
        jsonBuffer g' = jsonBuffer (apply_store (Set_mqttConnected true) (globals_booted 0))).
Proof.
  do 2 eexists. split; [reflexivity|]. split; [reflexivity|].
  exact (telemetry_document_invariant Z sample_serialize 0
           (tick_connected 7000 215) (apply_store (Set_mqttConnected true) (globals_booted 0)) _ _ eq_refl eq_refl).
Defined.

Lemma subscription_per_established_session_witness :
  exists calls g' t,
    run_loop sample_serialize 0
      [tick_fails_at 5000 215; tick_establish_succeeds 215;
       tick_connected 7000 215] (globals_booted 0)
      = Some (Normal calls g' t)
    /\ List.length calls = 3%nat
    /\ count is_subscribe t = count (is_establish_with true) t
    /\ count is_firmware_send t = (2 * count is_subscribe t)%nat.
Proof.
  do 3 eexists. split; [reflexivity|].
  exact (subscription_per_established_session Z sample_serialize 0
           [tick_fails_at 5000 215; tick_establish_succeeds 215;
            tick_connected 7000 215] (globals_booted 0) _ _ _ eq_refl).
Defined.

